(** * local_search.py: the retrieval-augmented answer pipeline

    A shallow embedding of [src/local_search.py].  The program is a chain of
    calls to the outside world (the search backend, the web, the cache
    database, the generation backend) glued by a little string handling.  The
    embedding keeps that shape:

    - a Python [str] is a [string]; one [ascii] stands for one character (the
      code points below 256), so that slicing counts characters;
    - an exception is a value of [exn]; a call that may raise returns a
      [result];
    - the outside world is an [environment] of replies, indexed by the number
      of outside calls made so far, so that the same request may be answered
      differently at different times;
    - the program runs in the monad [M] of state and exceptions over a
      [world]: the trace of outside calls made, and the rows of the table
      [web_cache];
    - [print] writes progress notices to standard output; the notices whose
      text is an ASCII template around data of the caller are left out.  The
      notice of line 154 is kept: its text has an arrow that is not ASCII, it
      stands outside every [try], and on a standard output that cannot
      encode it [print] raises [UnicodeEncodeError].  Standard output is not
      one of the recorded calls;
    - request headers and timeouts are constants of the program and are
      left out of the recorded calls (a timeout shows as a raising reply). *)

From Stdlib Require Import ZArith.
From stdpp Require Import gmap strings list.

Local Open Scope Z_scope.
Local Open Scope nat_scope.

(** ** Python strings *)

Module PyStr.

(** The line feed of the f-strings. *)
Definition nl : string := String (Ascii.ascii_of_nat 10) EmptyString.

(** [len(s)] *)
Definition len (s : string) : nat := String.length s.

(** [s[:n]] *)
Fixpoint slice_to (n : nat) (s : string) : string :=
  match n, s with
  | S n', String c s' => String c (slice_to n' s')
  | _, _ => EmptyString
  end.

(** [s[n:]] *)
Fixpoint slice_from (n : nat) (s : string) : string :=
  match n, s with
  | S n', String _ s' => slice_from n' s'
  | _, _ => s
  end.

(** [bool(s)]: a string is true when it is not empty. *)
Definition truthy (s : string) : bool :=
  match s with EmptyString => false | String _ _ => true end.

(** [a or b] on strings. *)
Definition or_else (a b : string) : string := if truthy a then a else b.

(** [s.startswith(p)] *)
Fixpoint startswith (p s : string) : bool :=
  match p, s with
  | EmptyString, _ => true
  | String a p', String b s' => bool_decide (a = b) && startswith p' s'
  | String _ _, EmptyString => false
  end.

(** [p in s] *)
Fixpoint contains (p s : string) : bool :=
  startswith p s ||
  match s with
  | EmptyString => false
  | String _ s' => contains p s'
  end.

(** [c.isspace()] for the characters below 256: tab to carriage return,
    the four separators 28..31, the space, NEL and the no-break space. *)
Definition isspace (c : Ascii.ascii) : bool :=
  let n := Ascii.nat_of_ascii c in
  (9 <=? n) && (n <=? 13) || (28 <=? n) && (n <=? 32)
  || (n =? 133) || (n =? 160).

Fixpoint lstrip (s : string) : string :=
  match s with
  | String c s' => if isspace c then lstrip s' else s
  | EmptyString => EmptyString
  end.

Fixpoint rstrip (s : string) : string :=
  match s with
  | String c s' =>
      let r := rstrip s' in
      if isspace c && negb (truthy r) then EmptyString else String c r
  | EmptyString => EmptyString
  end.

(** [s.strip()] *)
Definition strip (s : string) : string := rstrip (lstrip s).

(** [sep.join(parts)] *)
Fixpoint join (sep : string) (parts : list string) : string :=
  match parts with
  | [] => EmptyString
  | [p] => p
  | p :: rest => p +:+ sep +:+ join sep rest
  end.

End PyStr.

(** ** Exceptions and results *)

(** Every exception the program can meet is a subclass of [Exception]; the
    handlers of the program tell [requests.exceptions.RequestException]
    (connection errors, timeouts, [HTTPError]) from all the others
    ([psycopg2.Error], [ValueError], [AttributeError], ...). *)
Inductive exn : Type :=
| RequestException (msg : string)
| OtherException (msg : string).

(** [str(e)] *)
Definition str_exn (e : exn) : string :=
  match e with RequestException m | OtherException m => m end.

Inductive result (A : Type) : Type :=
| Return (a : A)
| Raise (e : exn).
Arguments Return {A} a.
Arguments Raise {A} e.

Definition is_return {A} (r : result A) : bool :=
  match r with Return _ => true | Raise _ => false end.

(** ** Data *)

(** The value [resp.json()] builds. *)
#[local] Set Warnings "-register-all".
Inductive pyobj : Type :=
| PyNone
| PyBool (b : bool)
| PyNum (literal : string)
| PyStr (s : string)
| PyList (items : list pyobj)
| PyDict (items : list (string * pyobj)).

(** What the program reads of a [requests.Response]. *)
Record response : Type := {
  status_code : Z;
  status_message : string;   (* the text of the HTTPError for this status *)
  text : string;             (* resp.text *)
  json : result pyobj        (* resp.json() *)
}.

(** An entry of [feedparser]'s [feed.entries].  An attribute the feed item
    did not have is absent, and reading it raises [AttributeError]. *)
Record entry : Type := {
  entry_title : option string;
  entry_link : option string;
  entry_summary : option string
}.

(** The dict [parse_rss_results] builds for a feed entry: it always has the
    three keys, so the defaults of [res.get] are never used. *)
Record search_result : Type := {
  res_title : string;     (* res["title"] *)
  res_url : string;       (* res["url"] *)
  res_content : string    (* res["content"], the snippet *)
}.

(** The JSON payload of the generation request. *)
Record llm_payload : Type := {
  payload_model : string;
  payload_prompt : string;
  payload_stream : bool;
  payload_options : list (string * string)
}.

(** ** The outside world *)

Inductive event : Type :=
| HttpGet (url : string) (params : list (string * string))
| HttpPost (url : string) (payload : llm_payload)
| DbSelect (url : string)
| DbUpsert (url content : string).

Record world : Type := {
  trace : list event;              (* outside calls so far, oldest first *)
  web_cache : gmap string string   (* table web_cache: url -> content *)
}.

(** The configuration and the behaviour of the collaborators.  The replies of
    the network and the failures of the database depend on the time, which is
    the number of outside calls made before; so does [print_failure], what
    [print] raises, if anything, for the notice of line 154 about a URL. *)
Record environment : Type := {
  SEARXNG_URL : string;
  OLLAMA_MODEL : string;
  get_reply : nat -> string -> list (string * string) -> result response;
  post_reply : nat -> string -> llm_payload -> result response;
  db_failure : nat -> option exn;
  print_failure : nat -> string -> option exn;
  trafilatura_extract : string -> result (option string);
  feedparser_parse : string -> result (list entry);
  urlparse_scheme : string -> result string
}.

Definition OLLAMA_API : string := "http://localhost:11434/api/generate".
Definition MAX_RESULTS : nat := 3.

(** ** The monad of the program *)

Definition M (A : Type) : Type := world -> result A * world.

Definition ret {A} (a : A) : M A := fun w => (Return a, w).

Definition raise {A} (e : exn) : M A := fun w => (Raise e, w).

Definition bind {A B} (m : M A) (k : A -> M B) : M B :=
  fun w =>
    match m w with
    | (Return a, w') => k a w'
    | (Raise e, w') => (Raise e, w')
    end.

(** [try: m except Exception as e: h e] *)
Definition try_except {A} (m : M A) (h : exn -> M A) : M A :=
  fun w =>
    match m w with
    | (Return a, w') => (Return a, w')
    | (Raise e, w') => h e w'
    end.

Definition lift {A} (r : result A) : M A := fun w => (r, w).

Notation "x <- m ;; k" := (bind m (fun x => k))
  (at level 100, m at next level, right associativity).
Notation "m ;;; k" := (bind m (fun _ => k))
  (at level 100, right associativity).

(** [for x in xs: s = body(s, x)] *)
Fixpoint for_each {A S} (body : S -> A -> M S) (xs : list A) (s : S) : M S :=
  match xs with
  | [] => ret s
  | x :: xs' => s' <- body s x ;; for_each body xs' s'
  end.

Definition now (w : world) : nat := length (trace w).

(** An outside call is appended to the trace when it is made. *)
Definition log_call (ev : event) (w : world) : world :=
  {| trace := trace w ++ [ev]; web_cache := web_cache w |}.

(** ** The program *)

Section Program.

Variable env : environment.

(** *** Outside calls *)

(** [requests.get(url, params=params, ...)] *)
Definition requests_get (url : string) (params : list (string * string))
  : M response :=
  fun w => (get_reply env (now w) url params, log_call (HttpGet url params) w).

(** [requests.post(url, json=payload, ...)] *)
Definition requests_post (url : string) (payload : llm_payload) : M response :=
  fun w => (post_reply env (now w) url payload, log_call (HttpPost url payload) w).

(** [resp.raise_for_status()]: an [HTTPError] for a status 4xx or 5xx. *)
Definition bad_status (resp : response) : bool :=
  ((400 <=? status_code resp) && (status_code resp <? 600))%Z.

Definition raise_for_status (resp : response) : M unit :=
  if bad_status resp
  then raise (RequestException (status_message resp))
  else ret tt.

(** [print(f"  -> Fetching: {url}")] of line 154, the arrow being the
    character U+2192: nothing is recorded, and [print] may raise. *)
Definition print_fetching (url : string) : M unit :=
  fun w =>
    match print_failure env (now w) url with
    | Some e => (Raise e, w)
    | None => (Return tt, w)
    end.

(** *** Database (lines 34-58) *)

(** Opening the connection ([get_db_connection]), the cursor and the
    statement are one call to the database, which answers or raises. *)

(** [get_cached_content]: the content of the row of [url], or [None] (a row
    whose content is NULL reads as [None] too, like no row).  Whatever
    [psycopg2] raises (on connecting, on executing) leaves the function:
    there is no handler. *)
Definition get_cached_content (url : string) : M (option string) :=
  fun w =>
    match db_failure env (now w) with
    | Some e => (Raise e, log_call (DbSelect url) w)
    | None => (Return (web_cache w !! url), log_call (DbSelect url) w)
    end.

(** [save_to_cache]: insert the row, or replace its content.  No handler
    either; a failed statement changes no row. *)
Definition save_to_cache (url content : string) : M unit :=
  fun w =>
    match db_failure env (now w) with
    | Some e => (Raise e, log_call (DbUpsert url content) w)
    | None =>
        (Return tt,
         {| trace := trace w ++ [DbUpsert url content];
            web_cache := <[url := content]> (web_cache w) |})
    end.

(** *** Web fetcher (lines 61-76) *)

Definition fetch_clean_text (url : string) : M string :=
  try_except
    (resp <- requests_get url [] ;;
     raise_for_status resp ;;;
     text <- lift (trafilatura_extract env (text resp)) ;;
     ret (match text with
          | Some t => PyStr.or_else t ""
          | None => ""
          end))
    (fun _ => ret "").

(** *** Generation (lines 79-95) *)

Definition llm_options : list (string * string) :=
  [("temperature", "0.3"); ("num_ctx", "4096")].

(** The value of [key] in the items of a dict. *)
Fixpoint dict_lookup (key : string) (items : list (string * pyobj))
  : option pyobj :=
  match items with
  | [] => None
  | (k, v) :: rest => if decide (k = key) then Some v else dict_lookup key rest
  end.

(** [o.get(key, default)]: only a dict has the method. *)
Definition py_get (o : pyobj) (key : string) (default : pyobj) : result pyobj :=
  match o with
  | PyDict items =>
      Return (match dict_lookup key items with Some v => v | None => default end)
  | _ => Raise (OtherException "object has no attribute 'get'")
  end.

(** [o.strip()]: only a string has the method. *)
Definition py_strip (o : pyobj) : result string :=
  match o with
  | PyStr s => Return (PyStr.strip s)
  | _ => Raise (OtherException "object has no attribute 'strip'")
  end.

Definition LLM_ERROR : string := "Error generating answer.".

Definition query_local_llm (prompt : string) : M string :=
  let payload := {| payload_model := OLLAMA_MODEL env;
                    payload_prompt := prompt;
                    payload_stream := false;
                    payload_options := llm_options |} in
  try_except
    (resp <- requests_post OLLAMA_API payload ;;
     raise_for_status resp ;;;
     body <- lift (json resp) ;;
     answer <- lift (py_get body "response" (PyStr "")) ;;
     lift (py_strip answer))
    (fun _ => ret LLM_ERROR).

(** *** Feed parsing (lines 97-108) *)

(** [entry.name]: [AttributeError] when the entry has no such element. *)
Definition getattr (field : option string) (name : string) : result string :=
  match field with
  | Some v => Return v
  | None => Raise (OtherException ("object has no attribute '" +:+ name +:+ "'"))
  end.

(** The body of the [for] loop: [results] is the list built so far. *)
Definition parse_entry (results : list search_result) (e : entry)
  : result (list search_result) :=
  match getattr (entry_link e) "link" with
  | Raise x => Raise x
  | Return link =>
      if PyStr.truthy link then
        match getattr (entry_title e) "title" with
        | Raise x => Raise x
        | Return title =>
            match getattr (entry_link e) "link" with
            | Raise x => Raise x
            | Return url =>
                match getattr (entry_summary e) "summary" with
                | Raise x => Raise x
                | Return summary =>
                    Return (results ++
                              [{| res_title := title; res_url := url;
                                  res_content := summary |}])
                end
            end
        end
      else Return results
  end.

Fixpoint parse_entries (entries : list entry) (results : list search_result)
  : result (list search_result) :=
  match entries with
  | [] => Return results
  | e :: rest =>
      match parse_entry results e with
      | Return results' => parse_entries rest results'
      | Raise x => Raise x
      end
  end.

Definition parse_rss_results (rss_text : string) : list search_result :=
  match feedparser_parse env rss_text with
  | Raise _ => []
  | Return entries =>
      match parse_entries entries [] with
      | Return results => results
      | Raise _ => []
      end
  end.

(** *** Main search function (lines 112-181) *)

Definition search_params (query : string) : list (string * string) :=
  [("q", query); ("format", "rss"); ("language", "en"); ("pageno", "1")].

(** [scheme in ("http", "https")] *)
Definition http_or_https (scheme : string) : bool :=
  bool_decide (scheme = "http") || bool_decide (scheme = "https").

Definition NO_CONTENT : string := "No content available.".
Definition NO_RESULTS : string := "No search results found.".
Definition NO_USABLE : string := "No usable content retrieved.".

(** Line 161: the block of one result. *)
Definition format_block (title url content : string) : string :=
  "Title: " +:+ title +:+ PyStr.nl +:+
  "URL: " +:+ url +:+ PyStr.nl +:+
  "Content: " +:+ PyStr.slice_to 2000 content.

(** Lines 154-159: the cache had nothing for [url]. *)
Definition fetch_live (url snippet : string) : M string :=
  print_fetching url ;;;
  content <- fetch_clean_text url ;;
  if PyStr.truthy content
  then save_to_cache url content ;;; ret content
  else ret (PyStr.or_else snippet NO_CONTENT).

(** Lines 152-159: the content of a retained result. *)
Definition page_content (url snippet : string) : M string :=
  content <- get_cached_content url ;;
  match content with
  | Some c => if PyStr.truthy c then ret c else fetch_live url snippet
  | None => fetch_live url snippet
  end.

(** Line 148: [not url or not urlparse(url).scheme in ("http", "https")];
    [urlparse] is called only when [url] is not empty, and may raise
    [ValueError]. *)
Definition skip_url (url : string) : result bool :=
  if PyStr.truthy url
  then match urlparse_scheme env url with
       | Return scheme => Return (negb (http_or_https scheme))
       | Raise e => Raise e
       end
  else Return true.

(** Lines 144-161: the body of the loop over [top_results]. *)
Definition process_result (contents : list string) (res : search_result)
  : M (list string) :=
  let url := res_url res in
  let title := res_title res in
  let snippet := res_content res in
  skip <- lift (skip_url url) ;;
  if (skip : bool) then ret contents
  else
    content <- page_content url snippet ;;
    ret (contents ++ [format_block title url content]).

(** Lines 167-177. *)
Definition build_prompt (context query : string) : string :=
  "Based on the following web search results, please answer the question."
  +:+ PyStr.nl +:+
  "Provide a concise answer (2-4 sentences) and cite the facts using the provided URLs."
  +:+ PyStr.nl +:+
  "If the information is not present in the results, state that you could not find a relevant answer."
  +:+ PyStr.nl +:+ PyStr.nl +:+
  "Web Results:" +:+ PyStr.nl +:+
  context +:+ PyStr.nl +:+ PyStr.nl +:+
  "---" +:+ PyStr.nl +:+
  "Question: " +:+ query +:+ PyStr.nl +:+ PyStr.nl +:+
  "Answer:".

Definition SEPARATOR : string :=
  PyStr.nl +:+ PyStr.nl +:+ "---" +:+ PyStr.nl +:+ PyStr.nl.

(** Lines 125-134: the search request; [inl] is the message the handlers
    return from the function. *)
Definition search_request (query : string)
  : M (string + list search_result) :=
  try_except
    (resp <- requests_get (SEARXNG_URL env) (search_params query) ;;
     raise_for_status resp ;;;
     ret (inr (parse_rss_results (text resp))))
    (fun e =>
       match e with
       | RequestException _ =>
           ret (inl ("[!] Search request failed: " +:+ str_exn e))
       | OtherException _ =>
           ret (inl ("[!] Search failed: " +:+ str_exn e))
       end).

(** Lines 136-181: what the function does with the parsed results. *)
Definition answer_from (query : string) (results : list search_result)
  : M string :=
  match results with
  | [] => ret NO_RESULTS
  | _ :: _ =>
      let top_results := take MAX_RESULTS results in
      contents <- for_each process_result top_results [] ;;
      match contents with
      | [] => ret NO_USABLE
      | _ :: _ =>
          let context := PyStr.join SEPARATOR contents in
          query_local_llm (build_prompt context query)
      end
  end.

Definition tavily_like_search (query : string) : M string :=
  searched <- search_request query ;;
  match searched with
  | inl message => ret message
  | inr results => answer_from query results
  end.

(** *** Command line (lines 184-193) *)

(** [s * n] *)
Fixpoint str_times (s : string) (n : nat) : string :=
  match n with
  | 0 => EmptyString
  | S n' => s +:+ str_times s n'
  end.

Definition USAGE : string := "Usage: python local_search.py 'your question here'".

(** The line printed before the result: ["\n" + "="*60]. *)
Definition RULE : string := PyStr.nl +:+ str_times "=" 60.

(** The script run with [sys.argv = argv]: the exit status and what the
    block itself prints, one string per [print].  [sys.exit(1)] ends the
    process with the status 1; an exception of [tavily_like_search] is not
    caught. *)
Definition main (argv : list string) : M (nat * list string) :=
  if length argv <? 2 then ret (1, [USAGE])
  else
    let question := PyStr.join " " (drop 1 argv) in
    result <- tavily_like_search question ;;
    ret (0, [RULE; result]).

End Program.

(** ** Reading a run *)

(** The outside calls made between two worlds of a run. *)
Definition events_since (w w' : world) : list event :=
  drop (now w) (trace w').

(** The URLs looked up in the cache, fetched from the web and written to the
    cache, and the generation requests, of a list of calls. *)
Definition cache_lookups (evs : list event) : list string :=
  omap (fun ev => match ev with DbSelect u => Some u | _ => None end) evs.

Definition page_fetches (evs : list event) : list string :=
  omap (fun ev => match ev with HttpGet u _ => Some u | _ => None end) evs.

Definition generation_calls (evs : list event) : list llm_payload :=
  omap (fun ev => match ev with HttpPost _ p => Some p | _ => None end) evs.

Definition cache_writes (evs : list event) : list string :=
  omap (fun ev => match ev with DbUpsert u _ => Some u | _ => None end) evs.

(** The search request of a run from [w], and its reply. *)
Definition search_call (env : environment) (query : string) : event :=
  HttpGet (SEARXNG_URL env) (search_params query).

Definition search_reply (env : environment) (query : string) (w : world)
  : result response :=
  get_reply env (now w) (SEARXNG_URL env) (search_params query).

(** The results parsed from a successful reply of the search backend. *)
Definition parsed_results (env : environment) (query : string) (w : world)
  : option (list search_result) :=
  match search_reply env query w with
  | Return resp =>
      if bad_status resp then None else Some (parse_rss_results env (text resp))
  | Raise _ => None
  end.

(** The verdict of line 148 on a result. *)
Definition retained (env : environment) (r : search_result) : bool :=
  match skip_url env (res_url r) with Return false => true | _ => false end.

Definition discarded (env : environment) (r : search_result) : bool :=
  match skip_url env (res_url r) with Return true => true | _ => false end.

(** The results the loop keeps, in order. *)
Definition kept (env : environment) (rs : list search_result)
  : list search_result :=
  filter (fun r => retained env r = true) rs.

(** The generation request of a run, and its reply at time [t]. *)
Definition llm_request (env : environment) (prompt : string) : llm_payload :=
  {| payload_model := OLLAMA_MODEL env; payload_prompt := prompt;
     payload_stream := false; payload_options := llm_options |}.

Definition llm_reply (env : environment) (prompt : string) (w : world)
  : result response :=
  post_reply env (now w) OLLAMA_API (llm_request env prompt).

(** [c] is what the extractor made of a page fetched from [url]. *)
Definition extracted (env : environment) (url c : string) : Prop :=
  c <> "" /\
  exists t resp,
    get_reply env t url [] = Return resp /\ bad_status resp = false /\
    trafilatura_extract env (text resp) = Return (Some c).

(** A feed entry with its three elements; an entry with a link that is not
    empty; the result such an entry yields. *)
Definition complete (e : entry) : Prop :=
  is_Some (entry_title e) /\ is_Some (entry_link e) /\ is_Some (entry_summary e).

Definition has_link (e : entry) : bool :=
  match entry_link e with Some l => PyStr.truthy l | None => false end.

Definition result_of (e : entry) : search_result :=
  {| res_title := default "" (entry_title e);
     res_url := default "" (entry_link e);
     res_content := default "" (entry_summary e) |}.

(** A feed entry the loop of [parse_rss_results] cannot read: it has no
    [link] element, or it has a link that is not empty and no [title] or no
    [summary] element. *)
Definition unreadable (e : entry) : bool :=
  match entry_link e with
  | None => true
  | Some l =>
      PyStr.truthy l &&
      (bool_decide (entry_title e = None) || bool_decide (entry_summary e = None))
  end.

(** What [fetch_clean_text] makes of the reply to its request. *)
Definition clean_text_of (env : environment) (reply : result response) : string :=
  match reply with
  | Return resp =>
      if bad_status resp then ""
      else match trafilatura_extract env (text resp) with
           | Return (Some t) => t
           | _ => ""
           end
  | Raise _ => ""
  end.

(** What [search_request] makes of the reply to its request. *)
Definition search_outcome (env : environment) (reply : result response)
  : string + list search_result :=
  match reply with
  | Return resp =>
      if bad_status resp
      then inl ("[!] Search request failed: " +:+ status_message resp)
      else inr (parse_rss_results env (text resp))
  | Raise (RequestException m) => inl ("[!] Search request failed: " +:+ m)
  | Raise (OtherException m) => inl ("[!] Search failed: " +:+ m)
  end.

(** The ways a generation call fails: the request raises (network error,
    timeout), the status is 4xx or 5xx, the body is not JSON, the JSON value
    is not an object, or its field [response] is not a string. *)
Inductive llm_failure (reply : result response) : Prop :=
| llm_transport (e : exn) :
    reply = Raise e -> llm_failure reply
| llm_status (resp : response) :
    reply = Return resp -> bad_status resp = true -> llm_failure reply
| llm_not_json (resp : response) (e : exn) :
    reply = Return resp -> bad_status resp = false ->
    json resp = Raise e -> llm_failure reply
| llm_not_object (resp : response) (o : pyobj) :
    reply = Return resp -> bad_status resp = false ->
    json resp = Return o -> (forall items, o <> PyDict items) ->
    llm_failure reply
| llm_not_text (resp : response) (items : list (string * pyobj)) (v : pyobj) :
    reply = Return resp -> bad_status resp = false ->
    json resp = Return (PyDict items) ->
    dict_lookup "response" items = Some v -> (forall s, v <> PyStr s) ->
    llm_failure reply.

(** The JSON object of the reply has no field [response]. *)
Definition field_missing (reply : result response) : Prop :=
  exists resp items,
    reply = Return resp /\ bad_status resp = false /\
    json resp = Return (PyDict items) /\ dict_lookup "response" items = None.

(** The runs of [page_content] from [w], by what the cache and the web
    answer. *)
Inductive page_run (env : environment) (url snippet : string) (w : world)
  : result string -> world -> Prop :=
| page_db_down (e : exn) :
    db_failure env (now w) = Some e ->
    page_run env url snippet w (Raise e) (log_call (DbSelect url) w)
| page_cached (c : string) :
    db_failure env (now w) = None ->
    web_cache w !! url = Some c -> c <> "" ->
    page_run env url snippet w (Return c) (log_call (DbSelect url) w)
| page_notice_failed (e : exn) :
    db_failure env (now w) = None ->
    (web_cache w !! url = None \/ web_cache w !! url = Some "") ->
    print_failure env (S (now w)) url = Some e ->
    page_run env url snippet w (Raise e) (log_call (DbSelect url) w)
| page_stored (c : string) :
    db_failure env (now w) = None ->
    (web_cache w !! url = None \/ web_cache w !! url = Some "") ->
    print_failure env (S (now w)) url = None ->
    clean_text_of env (get_reply env (S (now w)) url []) = c -> c <> "" ->
    db_failure env (S (S (now w))) = None ->
    page_run env url snippet w (Return c)
      {| trace := trace w ++ [DbSelect url; HttpGet url []; DbUpsert url c];
         web_cache := <[url := c]> (web_cache w) |}
| page_store_failed (c : string) (e : exn) :
    db_failure env (now w) = None ->
    (web_cache w !! url = None \/ web_cache w !! url = Some "") ->
    print_failure env (S (now w)) url = None ->
    clean_text_of env (get_reply env (S (now w)) url []) = c -> c <> "" ->
    db_failure env (S (S (now w))) = Some e ->
    page_run env url snippet w (Raise e)
      {| trace := trace w ++ [DbSelect url; HttpGet url []; DbUpsert url c];
         web_cache := web_cache w |}
| page_fallback :
    db_failure env (now w) = None ->
    (web_cache w !! url = None \/ web_cache w !! url = Some "") ->
    print_failure env (S (now w)) url = None ->
    clean_text_of env (get_reply env (S (now w)) url []) = "" ->
    page_run env url snippet w (Return (PyStr.or_else snippet NO_CONTENT))
      {| trace := trace w ++ [DbSelect url; HttpGet url []];
         web_cache := web_cache w |}.

(** From [w] to [w'] the run only made calls, and whatever it wrote to the
    cache under a URL is what the extractor made of a page fetched from that
    URL: so say the calls, and so say the rows. *)
Definition sound_writes (env : environment) (w w' : world) : Prop :=
  exists evs,
    trace w' = trace w ++ evs /\
    (forall u c, In (DbUpsert u c) evs -> extracted env u c) /\
    (forall u,
        web_cache w' !! u = web_cache w !! u \/
        exists c, web_cache w' !! u = Some c /\ extracted env u c).

(** The block of a retained result in a run from [w]: its title, its URL,
    and a content that is not empty: the row the cache had for the URL, or
    what the extractor made of the page, or else the snippet, or the
    placeholder when the snippet is empty. *)
Definition block_of (env : environment) (w : world) (r : search_result)
    (block : string) : Prop :=
  exists content,
    content <> "" /\
    block = format_block (res_title r) (res_url r) content /\
    (web_cache w !! res_url r = Some content \/
     extracted env (res_url r) content \/
     content = (if PyStr.truthy (res_content r) then res_content r
                else NO_CONTENT)).

(** ** Sample collaborators *)

Module Sample.

Definition w0 : world := {| trace := []; web_cache := ∅ |}.

Definition searx : string := "http://localhost:8888/search".

Definition ok (body : string) (j : result pyobj) : response :=
  {| status_code := 200; status_message := "200 OK"; text := body; json := j |}.

Definition not_json : result pyobj :=
  Raise (RequestException "Expecting value: line 1 column 1 (char 0)").

(** [urlparse(url).scheme] on the sample URLs. *)
Definition scheme (url : string) : result string :=
  if PyStr.startswith "https:" url then Return "https"
  else if PyStr.startswith "http:" url then Return "http"
  else if PyStr.startswith "ftp:" url then Return "ftp"
  else Return "".

(** The search backend answers with a feed whose entries are [entries];
    [page] is the web, [db] the failures of the database, [llm] the reply of
    the generation backend; the extractor keeps the body as it is. *)
Definition make (entries : list entry) (page : string -> result response)
    (db : nat -> option exn) (llm : result response) : environment :=
  {| SEARXNG_URL := searx;
     OLLAMA_MODEL := "llama3.2:1b";
     get_reply := fun _ url _ =>
       if decide (url = searx) then Return (ok "<rss></rss>" not_json)
       else page url;
     post_reply := fun _ _ _ => llm;
     db_failure := db;
     print_failure := fun _ _ => None;
     trafilatura_extract := fun html =>
       Return (if PyStr.truthy html then Some html else None);
     feedparser_parse := fun _ => Return entries;
     urlparse_scheme := scheme |}.

Definition item (title link summary : string) : entry :=
  {| entry_title := Some title; entry_link := Some link;
     entry_summary := Some summary |}.

Definition france : entry :=
  item "France" "https://example.org/france" "France info".

Definition web (url : string) : result response :=
  if decide (url = "https://example.org/france")
  then Return (ok "Paris is the capital of France." not_json)
  else Raise (RequestException "Connection refused").

Definition no_web (url : string) : result response :=
  Raise (RequestException "Connection refused").

Definition db_up (t : nat) : option exn := None.

Definition db_down (t : nat) : option exn :=
  Some (OtherException "could not connect to server").

Definition answers (s : string) : result response :=
  Return (ok "" (Return (PyDict [("response", PyStr s)]))).

Definition paris : string := "Paris is the capital of France (example.org).".

(** The scenario of the specification. *)
Definition scenario : environment := make [france] web db_up (answers paris).

(** The search backend refuses the connection. *)
Definition unreachable : environment :=
  {| SEARXNG_URL := searx;
     OLLAMA_MODEL := "llama3.2:1b";
     get_reply := fun _ _ _ => Raise (RequestException "Connection refused");
     post_reply := fun _ _ _ => answers paris;
     db_failure := db_up;
     print_failure := fun _ _ => None;
     trafilatura_extract := fun html => Return (Some html);
     feedparser_parse := fun _ => Return [];
     urlparse_scheme := scheme |}.

(** The database is down. *)
Definition cache_down : environment :=
  make [france] web db_down (answers paris).

(** The database answers the read and fails on the write. *)
Definition db_write_fails (t : nat) : option exn :=
  if decide (t = 3) then Some (OtherException "server closed the connection")
  else None.

Definition cache_write_down : environment :=
  make [france] web db_write_fails (answers paris).

(** A feed item without a [link] element, after a complete one. *)
Definition no_link : entry :=
  {| entry_title := Some "Untitled"; entry_link := None;
     entry_summary := Some "nothing to see" |}.

Definition feed_with_no_link : environment :=
  make [france; no_link] web db_up (answers paris).

(** The page cannot be fetched and the feed item has an empty summary. *)
Definition bare : entry := item "Bare" "https://example.org/bare" "".

Definition nothing_usable : environment :=
  make [bare] no_web db_up (answers paris).

(** The generation backend answers the JSON object [{}]. *)
Definition empty_object : environment :=
  make [france] web db_up (Return (ok "{}" (Return (PyDict [])))).

(** The generation backend answers 500. *)
Definition llm_broken : environment :=
  make [france] web db_up
    (Return {| status_code := 500;
               status_message := "500 Server Error: Internal Server Error";
               text := ""; json := not_json |}).

(** The only result of the search is not a web page. *)
Definition only_ftp : environment :=
  make [item "A file" "ftp://example.org/file" "a file"] web db_up
    (answers paris).

(** Four results: the second is not a web page, the fourth is France. *)
Definition four_results : environment :=
  make [item "One" "https://example.org/one" "first";
        item "Two" "ftp://example.org/two" "second";
        item "Three" "http://example.org/three" "third";
        france] web db_up (answers paris).

(** The same collaborators, with a standard output that cannot encode the
    arrow of the notice of line 154. *)
Definition cannot_encode : exn :=
  OtherException "'ascii' codec can't encode character '\u2192'".

Definition ascii_stdout (env : environment) : environment :=
  {| SEARXNG_URL := SEARXNG_URL env;
     OLLAMA_MODEL := OLLAMA_MODEL env;
     get_reply := get_reply env;
     post_reply := post_reply env;
     db_failure := db_failure env;
     print_failure := fun _ _ => Some cannot_encode;
     trafilatura_extract := trafilatura_extract env;
     feedparser_parse := feedparser_parse env;
     urlparse_scheme := urlparse_scheme env |}.



End Sample.

(** * Properties *)

(** ** Strings *)

Lemma append_cons (c : Ascii.ascii) (a b : string) :
  String c a +:+ b = String c (a +:+ b).
Proof. reflexivity. Qed.

Lemma truthy_true (s : string) : PyStr.truthy s = true <-> s <> "".
Proof. destruct s; simpl; split; intros; congruence. Qed.

Lemma truthy_false (s : string) : PyStr.truthy s = false <-> s = "".
Proof. destruct s; simpl; split; intros; congruence. Qed.

Lemma slice_to_len (n : nat) (s : string) :
  PyStr.len (PyStr.slice_to n s) = n `min` PyStr.len s.
Proof.
  revert s. induction n as [|n IH]; intros [|c s]; simpl; try done.
  unfold PyStr.len in *. simpl. by rewrite IH.
Qed.

Lemma slice_to_from (n : nat) (s : string) :
  PyStr.slice_to n s +:+ PyStr.slice_from n s = s.
Proof.
  revert s. induction n as [|n IH]; intros [|c s]; simpl; try done.
  by rewrite append_cons, IH.
Qed.

Lemma startswith_app (p s : string) : PyStr.startswith p (p +:+ s) = true.
Proof.
  induction p as [|c p IH]; [done|].
  rewrite append_cons. simpl. rewrite IH. by rewrite bool_decide_eq_true_2.
Qed.

Lemma contains_here (p s : string) :
  PyStr.startswith p s = true -> PyStr.contains p s = true.
Proof. intros H. destruct s; simpl in *; rewrite H; done. Qed.

Lemma contains_later (p a s : string) :
  PyStr.contains p s = true -> PyStr.contains p (a +:+ s) = true.
Proof.
  intros H. induction a as [|c a IH]; [done|].
  rewrite append_cons. simpl. rewrite IH. by rewrite orb_true_r.
Qed.

(** ** Worlds and traces *)

Lemma now_log_call (ev : event) (w : world) : now (log_call ev w) = S (now w).
Proof. unfold now, log_call. simpl. rewrite length_app. simpl. lia. Qed.

Lemma events_since_app (w w' : world) (evs : list event) :
  trace w' = trace w ++ evs -> events_since w w' = evs.
Proof.
  intros H. unfold events_since, now. rewrite H. by rewrite drop_app_length.
Qed.

Lemma cache_lookups_app (a b : list event) :
  cache_lookups (a ++ b) = cache_lookups a ++ cache_lookups b.
Proof. unfold cache_lookups. apply omap_app. Qed.

Lemma page_fetches_app (a b : list event) :
  page_fetches (a ++ b) = page_fetches a ++ page_fetches b.
Proof. unfold page_fetches. apply omap_app. Qed.

Lemma generation_calls_app (a b : list event) :
  generation_calls (a ++ b) = generation_calls a ++ generation_calls b.
Proof. unfold generation_calls. apply omap_app. Qed.

(** ** One run of each function *)

Section Runs.

Variable env : environment.

Lemma fetch_clean_text_run (url : string) (w : world) :
  fetch_clean_text env url w =
  (Return (clean_text_of env (get_reply env (now w) url [])),
   log_call (HttpGet url []) w).
Proof.
  unfold fetch_clean_text, try_except, bind, requests_get, raise_for_status,
    clean_text_of, lift, ret, raise.
  destruct (get_reply env (now w) url []) as [resp|e]; [|done].
  destruct (bad_status resp); [done|].
  destruct (trafilatura_extract env (text resp)) as [[t|]|e]; try done.
  unfold PyStr.or_else. by destruct t.
Qed.

Lemma search_request_run (query : string) (w : world) :
  search_request env query w =
  (Return (search_outcome env (search_reply env query w)),
   log_call (search_call env query) w).
Proof.
  unfold search_request, try_except, bind, requests_get, raise_for_status,
    search_outcome, search_reply, search_call, lift, ret, raise.
  destruct (get_reply env (now w) (SEARXNG_URL env) (search_params query))
    as [resp|[m|m]]; try done.
  by destruct (bad_status resp).
Qed.

Lemma query_local_llm_returns (prompt : string) (w : world) :
  exists answer,
    query_local_llm env prompt w =
    (Return answer, log_call (HttpPost OLLAMA_API (llm_request env prompt)) w).
Proof.
  unfold query_local_llm, try_except, bind, requests_post, raise_for_status,
    lift, ret, raise. fold (llm_request env prompt).
  destruct (post_reply env (now w) OLLAMA_API (llm_request env prompt))
    as [resp|e]; [|by eexists].
  destruct (bad_status resp); [by eexists|].
  destruct (json resp) as [o|e]; [|by eexists].
  destruct (py_get o "response" (PyStr "")) as [v|e]; [|by eexists].
  destruct (py_strip v); by eexists.
Qed.

Lemma page_content_run (url snippet : string) (w : world) :
  page_run env url snippet w
    (page_content env url snippet w).1 (page_content env url snippet w).2.
Proof.
  unfold page_content, get_cached_content, bind.
  destruct (db_failure env (now w)) as [e|] eqn:Hdb; simpl.
  { by apply page_db_down. }
  assert (Hlive : (web_cache w !! url = None \/ web_cache w !! url = Some "") ->
                  page_run env url snippet w
                    (fetch_live env url snippet (log_call (DbSelect url) w)).1
                    (fetch_live env url snippet (log_call (DbSelect url) w)).2).
  { intros Hmiss. unfold fetch_live, bind, print_fetching.
    rewrite now_log_call.
    destruct (print_failure env (S (now w)) url) as [e|] eqn:Hprint.
    { by apply page_notice_failed. }
    rewrite fetch_clean_text_run, now_log_call.
    destruct (PyStr.truthy (clean_text_of env (get_reply env (S (now w)) url [])))
      eqn:Ht.
    - apply truthy_true in Ht.
      unfold save_to_cache, ret. rewrite !now_log_call.
      destruct (db_failure env (S (S (now w)))) as [e|] eqn:Hput; simpl.
      + unfold log_call; simpl. rewrite <- !app_assoc; simpl.
        by eapply page_store_failed.
      + rewrite <- !app_assoc; simpl. by eapply page_stored.
    - apply truthy_false in Ht. unfold ret, log_call; simpl.
      rewrite <- !app_assoc; simpl. by apply page_fallback. }
  destruct (web_cache w !! url) as [c|] eqn:Hc.
  - destruct (PyStr.truthy c) eqn:Ht.
    + apply truthy_true in Ht. unfold ret; simpl. by apply page_cached.
    + apply truthy_false in Ht. subst c. apply Hlive. by right.
  - apply Hlive. by left.
Qed.

Lemma process_result_run (contents : list string) (res : search_result)
    (w : world) :
  process_result env contents res w =
  match skip_url env (res_url res) with
  | Raise e => (Raise e, w)
  | Return true => (Return contents, w)
  | Return false =>
      match page_content env (res_url res) (res_content res) w with
      | (Return c, w') =>
          (Return (contents ++ [format_block (res_title res) (res_url res) c]),
           w')
      | (Raise e, w') => (Raise e, w')
      end
  end.
Proof.
  unfold process_result, bind, lift, ret.
  by destruct (skip_url env (res_url res)) as [[|]|e].
Qed.

End Runs.

(** ** The search request (C3) *)

(** C3.  When the search request fails (it raises, or the status is 4xx or
    5xx: [parsed_results] is [None]) or the parsed result sequence is empty,
    [tavily_like_search] returns a message and makes no other outside call
    than the search request itself: no cache lookup, no page fetch, no
    generation call.  The message is the literal "No search results found."
    for an empty sequence, and contains the word "failed" for a failed
    request. *)
Theorem search_failure_is_terminal (env : environment) (query : string)
    (w : world) :
  parsed_results env query w = None \/ parsed_results env query w = Some [] ->
  exists message,
    tavily_like_search env query w =
      (Return message, log_call (search_call env query) w) /\
    (parsed_results env query w = Some [] -> message = NO_RESULTS) /\
    (parsed_results env query w = None ->
     PyStr.contains "failed" message = true).
Proof.
  intros Hfail. unfold tavily_like_search, bind.
  rewrite search_request_run.
  unfold parsed_results, search_outcome in *.
  destruct (search_reply env query w) as [resp|[m|m]].
  - destruct (bad_status resp).
    + eexists. split; [reflexivity|]. split; [done|]. intros _.
      apply (contains_later _ "[!] Search request "), contains_here.
      apply (startswith_app "failed").
    + destruct Hfail as [?|Hnil]; [done|].
      injection Hnil as Hnil. rewrite Hnil. simpl.
      eexists. split; [reflexivity|]. split; [done|]. intros ?; done.
  - eexists. split; [reflexivity|]. split; [done|]. intros _.
    apply (contains_later _ "[!] Search request "), contains_here.
    apply (startswith_app "failed").
  - eexists. split; [reflexivity|]. split; [done|]. intros _.
    apply (contains_later _ "[!] Search "), contains_here.
    apply (startswith_app "failed").
Qed.

Lemma search_failure_is_terminal_witness :
  parsed_results Sample.unreachable "capital of France" Sample.w0 = None /\
  exists message,
    (tavily_like_search Sample.unreachable "capital of France" Sample.w0).1 =
      Return message /\
    PyStr.contains "failed" message = true.
Proof.
  split; [reflexivity|].
  destruct (search_failure_is_terminal Sample.unreachable "capital of France"
              Sample.w0) as (message & Hrun & _ & Hfailed).
  - left. reflexivity.
  - exists message. split.
    + rewrite Hrun. reflexivity.
    + apply Hfailed. reflexivity.
Defined.

(** ** The generation call (C4) *)

(** C4, as the claim states it, fails: the backend answers the JSON object
    [{}], which has no field [response], and [query_local_llm] returns the
    empty string, not the error string. *)
Lemma query_local_llm_missing_field :
  field_missing (llm_reply Sample.empty_object "prompt" Sample.w0) /\
  (query_local_llm Sample.empty_object "prompt" Sample.w0).1 = Return "" /\
  (query_local_llm Sample.empty_object "prompt" Sample.w0).1 <> Return LLM_ERROR.
Proof.
  split; [|split].
  - eexists _, []. repeat split; reflexivity.
  - reflexivity.
  - discriminate.
Qed.

(** C4, amended.  [query_local_llm] never raises: it makes the one request
    and returns a string.  When the generation call fails (network error,
    timeout, status 4xx or 5xx, a body that is not JSON, a JSON value that is
    not an object, a field [response] that is not a string) that string is
    the fixed error string; when the JSON object has no field [response] it
    is the empty string. *)
Theorem query_local_llm_never_raises (env : environment) (prompt : string)
    (w : world) :
  let reply := llm_reply env prompt w in
  let w' := log_call (HttpPost OLLAMA_API (llm_request env prompt)) w in
  (exists answer, query_local_llm env prompt w = (Return answer, w')) /\
  (llm_failure reply -> query_local_llm env prompt w = (Return LLM_ERROR, w')) /\
  (field_missing reply -> query_local_llm env prompt w = (Return "", w')).
Proof.
  intros reply w'. split; [apply query_local_llm_returns|].
  unfold query_local_llm, try_except, bind, requests_post, raise_for_status,
    lift, ret, raise. fold (llm_request env prompt).
  subst reply. unfold llm_reply. split.
  - intros [e He|resp He Hs|resp e He Hs Hj|resp o He Hs Hj Ho
           |resp items v He Hs Hj Hv Hns]; rewrite He; try done;
      rewrite Hs; try done; rewrite Hj; try done.
    + destruct o; try done. by destruct (Ho items).
    + simpl. rewrite Hv. destruct v; try done. by destruct (Hns s).
  - intros (resp & items & He & Hs & Hj & Hv).
    rewrite He, Hs, Hj. simpl. by rewrite Hv.
Qed.

Lemma query_local_llm_never_raises_witness :
  llm_failure (llm_reply Sample.llm_broken "prompt" Sample.w0) /\
  (query_local_llm Sample.llm_broken "prompt" Sample.w0).1 = Return LLM_ERROR.
Proof.
  assert (Hfail : llm_failure (llm_reply Sample.llm_broken "prompt" Sample.w0)).
  { eapply llm_status; reflexivity. }
  split; [exact Hfail|].
  destruct (query_local_llm_never_raises Sample.llm_broken "prompt" Sample.w0)
    as (_ & Herr & _).
  rewrite (Herr Hfail). reflexivity.
Defined.

(** ** Feed parsing (C5) *)

Lemma parse_entries_complete (entries : list entry) (results : list search_result) :
  Forall complete entries ->
  parse_entries entries results =
  Return (results ++ map result_of (filter (fun e => has_link e = true) entries)).
Proof.
  intros Hall. revert results.
  induction Hall as [|e entries ([t Ht] & [l Hl] & [s Hs]) _ IH]; intros results.
  { simpl. by rewrite app_nil_r. }
  simpl. unfold parse_entry. rewrite Hl, Ht, Hs. simpl.
  destruct (PyStr.truthy l) eqn:Htruthy.
  - rewrite IH. rewrite filter_cons_True by (unfold has_link; by rewrite Hl).
    simpl. rewrite <- app_assoc. simpl.
    unfold result_of. by rewrite Ht, Hl, Hs.
  - rewrite IH. rewrite filter_cons_False; [done|].
    unfold has_link. rewrite Hl. congruence.
Qed.

(** When every entry of the feed has its three elements, the results are the
    entries with a link that is not empty, in the order of the feed. *)
Lemma parse_rss_results_complete (env : environment) (rss_text : string)
    (entries : list entry) :
  feedparser_parse env rss_text = Return entries ->
  Forall complete entries ->
  parse_rss_results env rss_text =
  map result_of (filter (fun e => has_link e = true) entries).
Proof.
  intros Hparse Hall. unfold parse_rss_results.
  rewrite Hparse. by rewrite (parse_entries_complete _ _ Hall).
Qed.

(** C5.  The feed holds a complete entry followed by an entry without a
    [link] element.  Reading [entry.link] of the second raises
    [AttributeError] inside the [try] that wraps the whole loop, and the
    handler returns the empty list: the first entry, which alone yields one
    result, is lost, and the second is not skipped. *)
Theorem parse_rss_results_loses_entries :
  parse_rss_results Sample.scenario "<rss>one item</rss>" =
    [{| res_title := "France"; res_url := "https://example.org/france";
        res_content := "France info" |}] /\
  feedparser_parse Sample.feed_with_no_link "<rss>two items</rss>" =
    Return [Sample.france; Sample.no_link] /\
  parse_rss_results Sample.feed_with_no_link "<rss>two items</rss>" = [].
Proof. repeat split. Qed.

(** ** The cache store (C1) *)

(** C1.  The database is down: the error [psycopg2] raises leaves
    [get_cached_content], and leaves [tavily_like_search] before any page is
    fetched.  The database fails on the write only: the error leaves
    [save_to_cache] and [tavily_like_search] as well, and no answer is
    generated. *)
Theorem cache_failure_reaches_caller :
  let down := tavily_like_search Sample.cache_down "capital of France" Sample.w0 in
  let half := tavily_like_search Sample.cache_write_down "capital of France" Sample.w0 in
  (get_cached_content Sample.cache_down "https://example.org/france" Sample.w0).1
    = Raise (OtherException "could not connect to server") /\
  down.1 = Raise (OtherException "could not connect to server") /\
  page_fetches (events_since Sample.w0 down.2) = [Sample.searx] /\
  half.1 = Raise (OtherException "server closed the connection") /\
  generation_calls (events_since Sample.w0 half.2) = [].
Proof. repeat split. Qed.

(** ** Truncation (C9) *)

(** C9.  The block the loop appends for a retained result is made of the
    title, the URL, and a piece of the content obtained for it (cached,
    fetched, or the fallback): the first [min L 2000] characters of that
    content, where [L] is its length. *)
Theorem block_content_is_truncated (env : environment) (contents : list string)
    (res : search_result) (w : world) (contents' : list string) (w' : world) :
  process_result env contents res w = (Return contents', w') ->
  retained env res = true ->
  exists content piece,
    page_content env (res_url res) (res_content res) w = (Return content, w') /\
    contents' = contents ++
      ["Title: " +:+ res_title res +:+ PyStr.nl +:+
       "URL: " +:+ res_url res +:+ PyStr.nl +:+
       "Content: " +:+ piece] /\
    PyStr.len piece = PyStr.len content `min` 2000 /\
    PyStr.len piece <= 2000 /\
    content = piece +:+ PyStr.slice_from 2000 content.
Proof.
  intros Hrun Hkept. rewrite process_result_run in Hrun.
  unfold retained in Hkept.
  destruct (skip_url env (res_url res)) as [[|]|e]; try done.
  destruct (page_content env (res_url res) (res_content res) w) as [[c|e] w1];
    [|done].
  injection Hrun as <- <-.
  exists c, (PyStr.slice_to 2000 c). split; [done|]. split; [done|].
  rewrite slice_to_len. split; [lia|]. split; [lia|].
  by rewrite slice_to_from.
Qed.

Lemma block_content_is_truncated_witness :
  retained Sample.scenario (result_of Sample.france) = true /\
  exists content piece,
    page_content Sample.scenario "https://example.org/france" "France info"
      (log_call (search_call Sample.scenario "capital of France") Sample.w0) =
    (Return content,
     (process_result Sample.scenario [] (result_of Sample.france)
       (log_call (search_call Sample.scenario "capital of France") Sample.w0)).2)
    /\ PyStr.len piece <= 2000
    /\ content = piece +:+ PyStr.slice_from 2000 content.
Proof.
  split; [reflexivity|].
  destruct (block_content_is_truncated Sample.scenario [] (result_of Sample.france)
              (log_call (search_call Sample.scenario "capital of France") Sample.w0)
              _ _ eq_refl eq_refl)
    as (content & piece & Hpage & _ & _ & Hle & Hcut).
  exists content, piece. split; [exact Hpage|]. split; [exact Hle|exact Hcut].
Defined.

(** ** What a run writes to the cache *)

Section Writes.

Variable env : environment.

Lemma clean_text_extracted (t : nat) (url c : string) :
  clean_text_of env (get_reply env t url []) = c -> c <> "" ->
  extracted env url c.
Proof.
  unfold clean_text_of. intros Hc Hne. split; [done|].
  destruct (get_reply env t url []) as [resp|e] eqn:Hreply; [|congruence].
  destruct (bad_status resp) eqn:Hs; [congruence|].
  destruct (trafilatura_extract env (text resp)) as [[x|]|e] eqn:Hx;
    try congruence.
  exists t, resp. subst x. done.
Qed.

Lemma sound_writes_refl (w : world) : sound_writes env w w.
Proof.
  exists []. split; [by rewrite app_nil_r|]. split; [by intros ? ? []|].
  intros u. by left.
Qed.

Lemma sound_writes_trans (w1 w2 w3 : world) :
  sound_writes env w1 w2 -> sound_writes env w2 w3 -> sound_writes env w1 w3.
Proof.
  intros (evs1 & Ht1 & He1 & Hc1) (evs2 & Ht2 & He2 & Hc2).
  exists (evs1 ++ evs2). split; [by rewrite Ht2, Ht1, app_assoc|]. split.
  - intros u c [?|?]%in_app_iff; eauto.
  - intros u. destruct (Hc2 u) as [Heq|?]; [|by right].
    rewrite Heq. apply Hc1.
Qed.

Lemma sound_writes_log (ev : event) (w : world) :
  (forall u c, ev <> DbUpsert u c) -> sound_writes env w (log_call ev w).
Proof.
  intros Hev. exists [ev]. split; [done|]. split.
  - intros u c [->|[]]. by destruct (Hev u c).
  - intros u. by left.
Qed.

Lemma page_run_sound (url snippet : string) (w : world) (r : result string)
    (w' : world) :
  page_run env url snippet w r w' -> sound_writes env w w'.
Proof.
  intros [e Hdb|c Hdb Hc Hne|e Hdb Hc Hprint|c Hdb Hc _ Hx Hne Hput
         |c e Hdb Hc _ Hx Hne Hput|Hdb Hc _ Hx].
  - by apply sound_writes_log.
  - by apply sound_writes_log.
  - by apply sound_writes_log.
  - pose proof (clean_text_extracted _ _ _ Hx Hne) as Hex.
    eexists. split; [done|]. split; simpl.
    + intros u c' [?|[?|[[= <- <-]|[]]]]; done.
    + intros u. destruct (decide (url = u)) as [<-|Hu].
      * right. exists c. by rewrite lookup_insert_eq.
      * left. by rewrite lookup_insert_ne.
  - pose proof (clean_text_extracted _ _ _ Hx Hne) as Hex.
    eexists. split; [done|]. split; simpl.
    + intros u c' [?|[?|[[= <- <-]|[]]]]; done.
    + intros u. by left.
  - eexists. split; [done|]. split; simpl.
    + intros u c' [?|[?|[]]]; done.
    + intros u. by left.
Qed.

(** One retained result: the calls made for it, and its content. *)
Lemma page_run_summary (w0 : world) (url snippet : string) (w : world)
    (r : result string) (w' : world) :
  sound_writes env w0 w ->
  page_run env url snippet w r w' ->
  exists evs,
    trace w' = trace w ++ evs /\
    cache_lookups evs = [url] /\
    page_fetches evs `sublist_of` [url] /\
    generation_calls evs = [] /\
    forall c, r = Return c ->
      c <> "" /\
      (web_cache w0 !! url = Some c \/ extracted env url c \/
       c = (if PyStr.truthy snippet then snippet else NO_CONTENT)).
Proof.
  intros (_ & _ & _ & Hrows)
    [e Hdb|c Hdb Hc Hne|e Hdb Hc Hprint|c Hdb Hc _ Hx Hne Hput
    |c e Hdb Hc _ Hx Hne Hput|Hdb Hc _ Hx].
  - exists [DbSelect url]. split_and!; try done. apply sublist_nil_l.
  - exists [DbSelect url]. split_and!; try done; try apply sublist_nil_l.
    intros c' [= <-]. split; [done|].
    destruct (Hrows url) as [Heq|(c' & Hc' & Hex)].
    + left. congruence.
    + right; left. congruence.
  - exists [DbSelect url]. split_and!; try done. apply sublist_nil_l.
  - exists [DbSelect url; HttpGet url []; DbUpsert url c].
    split_and!; try done.
    intros c' [= <-]. split; [done|]. right; left.
    by eapply clean_text_extracted.
  - exists [DbSelect url; HttpGet url []; DbUpsert url c].
    split_and!; done.
  - exists [DbSelect url; HttpGet url []].
    split_and!; try done.
    intros c' [= <-]. split; [|by right; right].
    unfold NO_CONTENT, PyStr.or_else.
    by destruct (PyStr.truthy snippet) eqn:Ht; [apply truthy_true|].
Qed.

End Writes.

(** ** The loop over the first results *)

Section Loop.

Variable env : environment.

(** The test of line 148, spelled out. *)
Lemma retained_spec (r : search_result) :
  retained env r = true <->
  res_url r <> "" /\
  exists scheme,
    urlparse_scheme env (res_url r) = Return scheme /\
    (scheme = "http" \/ scheme = "https").
Proof.
  unfold retained, skip_url, http_or_https.
  destruct (PyStr.truthy (res_url r)) eqn:Hu.
  - apply truthy_true in Hu.
    destruct (urlparse_scheme env (res_url r)) as [scheme|e].
    + destruct (decide (scheme = "http")) as [->|H1]; simpl.
      { split; [|done]. intros _. split; [done|]. exists "http". by split; [|left]. }
      rewrite (bool_decide_eq_false_2 _ H1). simpl.
      destruct (decide (scheme = "https")) as [->|H2]; simpl.
      { split; [|done]. intros _. split; [done|]. exists "https". by split; [|right]. }
      rewrite (bool_decide_eq_false_2 _ H2). simpl.
      split; [done|]. intros (_ & s' & [= <-] & [?|?]); done.
    + split; [done|]. by intros (_ & s' & ? & _).
  - apply truthy_false in Hu. split; [done|]. by intros [? _].
Qed.


Lemma kept_retained (rs : list search_result) :
  Forall (fun r => retained env r = true) (kept env rs).
Proof.
  unfold kept. apply Forall_forall. by intros r [? _]%list_elem_of_filter.
Qed.


(** The loop passes over discarded results without a call. *)
Lemma for_each_discarded (rs : list search_result) (contents : list string)
    (w : world) :
  Forall (fun r => discarded env r = true) rs ->
  for_each (process_result env) rs contents w = (Return contents, w).
Proof.
  induction 1 as [|r rs Hr _ IH]; [done|].
  simpl. unfold bind. rewrite process_result_run.
  unfold discarded in Hr.
  by destruct (skip_url env (res_url r)) as [[|]|e].
Qed.

(** What the loop did when it ends, by return or by exception. *)
Lemma for_each_summary (w0 : world) (rs : list search_result) :
  forall (contents : list string) (w : world) (r : result (list string))
         (w' : world),
    sound_writes env w0 w ->
    for_each (process_result env) rs contents w = (r, w') ->
    sound_writes env w0 w' /\
    exists evs,
      trace w' = trace w ++ evs /\
      cache_lookups evs `prefix_of` map res_url (kept env rs) /\
      page_fetches evs `sublist_of` cache_lookups evs /\
      generation_calls evs = [] /\
      forall contents', r = Return contents' ->
        cache_lookups evs = map res_url (kept env rs) /\
        Forall (fun x => retained env x = true \/ discarded env x = true) rs /\
        exists blocks,
          contents' = contents ++ blocks /\
          Forall2 (block_of env w0) (kept env rs) blocks.
Proof.
  induction rs as [|x rs IH]; intros contents w r w' Hsound Hrun.
  { injection Hrun as <- <-. split; [done|]. exists [].
    split_and!; try done; try (by rewrite app_nil_r); try apply prefix_nil.
    intros contents' [= <-]. split_and!; try done.
    exists []. by rewrite app_nil_r. }
  simpl in Hrun. unfold bind in Hrun. rewrite process_result_run in Hrun.
  unfold kept. fold (kept env rs).
  destruct (skip_url env (res_url x)) as [[|]|e] eqn:Hskip.
  - (* discarded *)
    assert (Hx : retained env x = false) by (unfold retained; by rewrite Hskip).
    rewrite filter_cons_False by congruence. fold (kept env rs).
    destruct (IH _ _ _ _ Hsound Hrun) as (Hs' & evs & Ht & Hl & Hf & Hg & Hret).
    split; [done|]. exists evs. split_and!; try done.
    intros contents' Hr. destruct (Hret _ Hr) as (? & ? & ?).
    split_and!; try done. constructor; [|done].
    right. unfold discarded. by rewrite Hskip.
  - (* retained *)
    assert (Hx : retained env x = true) by (unfold retained; by rewrite Hskip).
    rewrite filter_cons_True by done. fold (kept env rs).
    pose proof (page_content_run env (res_url x) (res_content x) w) as Hpage.
    destruct (page_content env (res_url x) (res_content x) w) as [[c|e] w1];
      simpl in Hpage.
    + pose proof (sound_writes_trans _ _ _ _ Hsound (page_run_sound _ _ _ _ _ _ Hpage))
        as Hsound1.
      destruct (page_run_summary _ _ _ _ _ _ _ Hsound Hpage)
        as (evs1 & Ht1 & Hl1 & Hf1 & Hg1 & Hc).
      destruct (Hc c eq_refl) as (Hne & Hsrc).
      destruct (IH _ _ _ _ Hsound1 Hrun) as (Hs' & evs & Ht & Hl & Hf & Hg & Hret).
      split; [done|]. exists (evs1 ++ evs).
      rewrite cache_lookups_app, page_fetches_app, generation_calls_app, Hl1, Hg1, Hg.
      split_and!; try done.
      * by rewrite Ht, Ht1, app_assoc.
      * by apply prefix_cons.
      * by apply sublist_app.
      * intros contents' Hr. destruct (Hret _ Hr) as (Hall & Hv & blocks & -> & Hb).
        split_and!.
        -- simpl. by rewrite Hall.
        -- constructor; [by left|done].
        -- eexists (_ :: blocks). split; [by rewrite <- app_assoc|].
           constructor; [|done]. by exists c.
    + injection Hrun as <- <-.
      destruct (page_run_summary _ _ _ _ _ _ _ Hsound Hpage)
        as (evs1 & Ht1 & Hl1 & Hf1 & Hg1 & _).
      split; [by eapply sound_writes_trans, page_run_sound|].
      exists evs1. rewrite Hl1. split_and!; try done.
      apply prefix_cons, prefix_nil.
  - (* urlparse raised *)
    injection Hrun as <- <-. split; [done|]. exists [].
    split_and!; try done; try (by rewrite app_nil_r); apply prefix_nil.
Qed.

(** The function after a reply of the search backend. *)
Lemma tavily_like_search_unfold (query : string) (w : world) :
  tavily_like_search env query w =
  match search_outcome env (search_reply env query w) with
  | inl message => (Return message, log_call (search_call env query) w)
  | inr results =>
      answer_from env query results (log_call (search_call env query) w)
  end.
Proof.
  unfold tavily_like_search, bind. rewrite search_request_run.
  by destruct (search_outcome env (search_reply env query w)).
Qed.

Lemma tavily_like_search_parsed (query : string) (w : world)
    (results : list search_result) :
  parsed_results env query w = Some results ->
  tavily_like_search env query w =
  answer_from env query results (log_call (search_call env query) w).
Proof.
  intros Hp. rewrite tavily_like_search_unfold.
  unfold parsed_results, search_outcome in *.
  destruct (search_reply env query w) as [resp|e]; [|done].
  destruct (bad_status resp); [done|]. by injection Hp as ->.
Qed.

(** What [answer_from] did, for results that are not empty. *)
Lemma answer_from_summary (query : string) (results : list search_result)
    (w : world) (r : result string) (w' : world) :
  results <> [] ->
  answer_from env query results w = (r, w') ->
  let top := take MAX_RESULTS results in
  sound_writes env w w' /\
  exists evs,
    trace w' = trace w ++ evs /\
    cache_lookups evs `prefix_of` map res_url (kept env top) /\
    page_fetches evs `sublist_of` cache_lookups evs /\
    match r with
    | Raise _ => generation_calls evs = []
    | Return answer =>
        cache_lookups evs = map res_url (kept env top) /\
        Forall (fun x => retained env x = true \/ discarded env x = true) top /\
        exists blocks,
          Forall2 (block_of env w) (kept env top) blocks /\
          match blocks with
          | [] => answer = NO_USABLE /\ generation_calls evs = []
          | _ :: _ =>
              generation_calls evs =
              [llm_request env
                 (build_prompt (PyStr.join SEPARATOR blocks) query)]
          end
    end.
Proof.
  intros Hne Hrun top. unfold answer_from in Hrun.
  destruct results as [|r0 rest]; [done|]. fold top in Hrun.
  unfold bind in Hrun.
  destruct (for_each (process_result env) top [] w) as [[contents|e] w1] eqn:Hloop.
  - destruct (for_each_summary w top _ _ _ _ (sound_writes_refl env w) Hloop)
      as (Hs & evs & Ht & Hl & Hf & Hg & Hret).
    destruct (Hret _ eq_refl) as (Hall & Hv & blocks & Hb & HF2).
    simpl in Hb. subst blocks.
    destruct contents as [|b bs].
    + injection Hrun as <- <-. split; [done|]. exists evs.
      split_and!; try done. by exists [].
    + destruct (query_local_llm_returns env
                  (build_prompt (PyStr.join SEPARATOR (b :: bs)) query) w1)
        as (answer & Hllm).
      rewrite Hllm in Hrun. injection Hrun as <- <-. split.
      * eapply sound_writes_trans; [done|]. by apply sound_writes_log.
      * exists (evs ++ [HttpPost OLLAMA_API
                          (llm_request env
                             (build_prompt (PyStr.join SEPARATOR (b :: bs)) query))]).
        rewrite cache_lookups_app, page_fetches_app, generation_calls_app, Hg.
        simpl. rewrite !app_nil_r. split_and!; try done.
        -- by rewrite Ht, app_assoc.
        -- by exists (b :: bs).
  - injection Hrun as <- <-.
    destruct (for_each_summary w top _ _ _ _ (sound_writes_refl env w) Hloop)
      as (Hs & evs & Ht & Hl & Hf & Hg & _).
    split; [done|]. by exists evs.
Qed.

End Loop.

(** ** The whole run *)

Section Pipeline.

Variable env : environment.

Lemma tavily_like_search_sound (query : string) (w : world) :
  sound_writes env w (tavily_like_search env query w).2.
Proof.
  rewrite tavily_like_search_unfold.
  destruct (search_outcome env (search_reply env query w)) as [m|results].
  { by apply sound_writes_log. }
  destruct results as [|r0 rest] eqn:Hres.
  { by apply sound_writes_log. }
  rewrite <- Hres.
  destruct (answer_from env query results
              (log_call (search_call env query) w)) as [r w'] eqn:Hrun.
  apply answer_from_summary in Hrun as [Hs _]; [|by rewrite Hres].
  eapply sound_writes_trans; [|exact Hs]. by apply sound_writes_log.
Qed.

(** A run whose search returned results: the calls after the search
    request, and the outcome. *)
Lemma tavily_like_search_summary (query : string) (w : world)
    (results : list search_result) :
  parsed_results env query w = Some results -> results <> [] ->
  let top := take MAX_RESULTS results in
  let run := tavily_like_search env query w in
  exists evs,
    events_since w run.2 = search_call env query :: evs /\
    cache_lookups evs `prefix_of` map res_url (kept env top) /\
    page_fetches evs `sublist_of` cache_lookups evs /\
    match run.1 with
    | Raise _ => generation_calls evs = []
    | Return answer =>
        cache_lookups evs = map res_url (kept env top) /\
        Forall (fun x => retained env x = true \/ discarded env x = true) top /\
        exists blocks,
          Forall2 (block_of env w) (kept env top) blocks /\
          match blocks with
          | [] => answer = NO_USABLE /\ generation_calls evs = []
          | _ :: _ =>
              generation_calls evs =
              [llm_request env
                 (build_prompt (PyStr.join SEPARATOR blocks) query)]
          end
    end.
Proof.
  intros Hp Hne top run. subst run.
  rewrite (tavily_like_search_parsed _ _ _ _ Hp).
  destruct (answer_from env query results
              (log_call (search_call env query) w)) as [r w'] eqn:Hrun.
  apply answer_from_summary in Hrun as (_ & evs & Ht & Hl & Hf & Hr); [|done].
  exists evs. simpl. split_and!; try done.
  apply events_since_app. rewrite Ht. simpl. by rewrite <- app_assoc.
Qed.

End Pipeline.

(** The scenario of the specification: one result, a cache miss, a page
    whose extracted text is kept, and the answer of the generation backend
    returned as it is. *)
Example scenario_answer :
  tavily_like_search Sample.scenario "capital of France" Sample.w0 =
  (Return Sample.paris,
   {| trace :=
        [search_call Sample.scenario "capital of France";
         DbSelect "https://example.org/france";
         HttpGet "https://example.org/france" [];
         DbUpsert "https://example.org/france" "Paris is the capital of France.";
         HttpPost OLLAMA_API
           (llm_request Sample.scenario
              (build_prompt
                 (format_block "France" "https://example.org/france"
                    "Paris is the capital of France.")
                 "capital of France"))];
      web_cache :=
        {[ "https://example.org/france" := "Paris is the capital of France." ]} |}).
Proof. vm_compute. reflexivity. Qed.

(** ** The terminal message for no usable content (C2, C10) *)

(** C2, as the claim states it, fails: the only result is retained, the
    cache has no row for its URL, the page cannot be fetched and the snippet
    is empty; the loop appends the block of the placeholder, the generation
    backend is called with it, and its answer is returned. *)
Lemma placeholder_block_reaches_generation :
  let url := "https://example.org/bare" in
  let run := tavily_like_search Sample.nothing_usable "question" Sample.w0 in
  parsed_results Sample.nothing_usable "question" Sample.w0 =
    Some [result_of Sample.bare] /\
  retained Sample.nothing_usable (result_of Sample.bare) = true /\
  res_content (result_of Sample.bare) = "" /\
  web_cache Sample.w0 !! url = None /\
  (fetch_clean_text Sample.nothing_usable url
     (log_call (DbSelect url)
        (log_call (search_call Sample.nothing_usable "question") Sample.w0))).1
    = Return "" /\
  run.1 = Return Sample.paris /\
  run.1 <> Return NO_USABLE /\
  generation_calls (events_since Sample.w0 run.2) =
    [llm_request Sample.nothing_usable
       (build_prompt (format_block "Bare" url NO_CONTENT) "question")].
Proof. split_and!; try reflexivity. discriminate. Qed.

(** C2, amended.  When the search returned results and none of the first
    three is retained by the test on the URL, [tavily_like_search] returns
    "No usable content retrieved." after the search request alone: no
    cache lookup, no page fetch, no generation call.  When one of them is
    retained and the run does not end by an exception, the generation
    backend is called, whatever the contents and the snippets are. *)
Theorem nothing_retained_is_terminal (env : environment) (query : string)
    (w : world) (results : list search_result) :
  parsed_results env query w = Some results -> results <> [] ->
  let top := take MAX_RESULTS results in
  let run := tavily_like_search env query w in
  (Forall (fun r => discarded env r = true) top ->
   run = (Return NO_USABLE, log_call (search_call env query) w)) /\
  (forall r, In r top -> retained env r = true -> is_return run.1 = true ->
   exists prompt,
     generation_calls (events_since w run.2) = [llm_request env prompt]).
Proof.
  intros Hp Hne top run. split.
  - intros Hall. subst run. rewrite (tavily_like_search_parsed _ _ _ _ Hp).
    unfold answer_from. destruct results as [|r0 rest]; [done|].
    fold top. unfold bind. by rewrite for_each_discarded.
  - intros r Hin Hr Hret.
    destruct (tavily_like_search_summary env query w results Hp Hne)
      as (evs & Hev & _ & _ & Hrun).
    fold run in Hev, Hrun. rewrite Hev.
    destruct (run.1) as [answer|e]; [|done].
    destruct Hrun as (_ & _ & blocks & HF2 & Hb).
    destruct blocks as [|b bs].
    + apply Forall2_nil_inv_r in HF2.
      assert (Hk : r ∈ kept env top).
      { unfold kept. apply list_elem_of_filter. split; [done|].
        by apply list_elem_of_In. }
      unfold top in Hk. rewrite HF2 in Hk. by apply not_elem_of_nil in Hk.
    + eexists. simpl. exact Hb.
Qed.

Lemma nothing_retained_is_terminal_witness :
  parsed_results Sample.only_ftp "question" Sample.w0 =
    Some [{| res_title := "A file"; res_url := "ftp://example.org/file";
             res_content := "a file" |}] /\
  tavily_like_search Sample.only_ftp "question" Sample.w0 =
    (Return NO_USABLE,
     log_call (search_call Sample.only_ftp "question") Sample.w0).
Proof.
  split; [reflexivity|].
  apply (nothing_retained_is_terminal Sample.only_ftp "question" Sample.w0
           [{| res_title := "A file"; res_url := "ftp://example.org/file";
               res_content := "a file" |}]).
  - reflexivity.
  - discriminate.
  - repeat constructor.
Defined.




(** ** The cache (C6, C7) *)

(** C6.  The first run of lines 152-159 on [url] returned [c] and wrote it
    to the cache.  A second run on the same URL, from a world [w2] in which
    the row of [url] is the one the first run left and the database answers
    the read, returns the same [c] after the cache lookup alone: it makes no
    request to the web and does not write again. *)
Theorem second_fetch_served_from_cache (env : environment)
    (url snippet snippet' c : string) (w w1 w2 : world) :
  page_content env url snippet w = (Return c, w1) ->
  In (DbUpsert url c) (events_since w w1) ->
  web_cache w2 !! url = web_cache w1 !! url ->
  db_failure env (now w2) = None ->
  c <> "" /\
  page_content env url snippet' w2 = (Return c, log_call (DbSelect url) w2) /\
  page_fetches (events_since w2 (page_content env url snippet' w2).2) = [].
Proof.
  intros Hrun Hput Hrow Hdb.
  pose proof (page_content_run env url snippet w) as Hpage.
  rewrite Hrun in Hpage. simpl in Hpage.
  assert (Hstored : c <> "" /\ web_cache w1 !! url = Some c).
  { remember (Return c) as r eqn:Hr.
    destruct Hpage as [e _|c0 _ Hc0 Hne0|e _ _ _|c0 _ _ _ Hx Hne0 _
                      |c0 e _ _ _ _ _ _|_ _ _ Hx]; try discriminate Hr.
    - rewrite (events_since_app _ _ [DbSelect url]) in Hput by done.
      by destruct Hput as [?|[]].
    - injection Hr as ->. split; [done|]. simpl. by rewrite lookup_insert_eq.
    - rewrite (events_since_app _ _ [DbSelect url; HttpGet url []]) in Hput
        by done.
      by destruct Hput as [?|[?|[]]]. }
  destruct Hstored as [Hne Hc]. split; [done|].
  assert (Hsecond : page_content env url snippet' w2 =
                    (Return c, log_call (DbSelect url) w2)).
  { unfold page_content, get_cached_content, bind.
    rewrite Hdb, Hrow, Hc.
    apply truthy_true in Hne. by rewrite Hne. }
  split; [done|]. rewrite Hsecond. simpl.
  by rewrite (events_since_app _ _ [DbSelect url]).
Qed.

Lemma second_fetch_served_from_cache_witness :
  let url := "https://example.org/france" in
  let first := page_content Sample.scenario url "France info" Sample.w0 in
  first.1 = Return "Paris is the capital of France." /\
  page_fetches (events_since Sample.w0 first.2) = [url] /\
  page_content Sample.scenario url "France info" first.2 =
    (Return "Paris is the capital of France.",
     log_call (DbSelect url) first.2).
Proof.
  split; [reflexivity|]. split; [reflexivity|].
  destruct (second_fetch_served_from_cache Sample.scenario
              "https://example.org/france" "France info" "France info"
              "Paris is the capital of France." Sample.w0
              (page_content Sample.scenario "https://example.org/france"
                 "France info" Sample.w0).2
              (page_content Sample.scenario "https://example.org/france"
                 "France info" Sample.w0).2) as (_ & Hsecond & _).
  - reflexivity.
  - vm_compute. right; right; left. reflexivity.
  - reflexivity.
  - reflexivity.
  - exact Hsecond.
Defined.

(** C7.  Whatever a run of [tavily_like_search] writes to the cache under a
    URL is a text that is not empty and that the extractor made of a page
    fetched from that URL: so are the values of the writes it makes, and so
    are the rows that differ when it ends.  A run of lines 152-159 whose fetch
    yields the empty text leaves the rows as they are, whatever the snippet. *)
Theorem cache_holds_extractor_output (env : environment) (query : string)
    (w : world) (u : string) :
  let w' := (tavily_like_search env query w).2 in
  (forall c, In (DbUpsert u c) (events_since w w') -> extracted env u c) /\
  (web_cache w' !! u <> web_cache w !! u ->
   exists c, web_cache w' !! u = Some c /\ extracted env u c) /\
  (forall snippet wa,
      clean_text_of env (get_reply env (S (now wa)) u []) = "" ->
      web_cache (page_content env u snippet wa).2 = web_cache wa).
Proof.
  intros w'. destruct (tavily_like_search_sound env query w)
    as (evs & Ht & Hev & Hrows). fold w' in Ht, Hrows. split_and!.
  - intros c Hin. rewrite (events_since_app _ _ _ Ht) in Hin. by apply Hev.
  - intros Hdiff. by destruct (Hrows u).
  - intros snippet wa Hempty.
    pose proof (page_content_run env u snippet wa) as Hpage.
    inversion Hpage; try done. congruence.
Qed.

Lemma cache_holds_extractor_output_witness :
  let url := "https://example.org/france" in
  let w' := (tavily_like_search Sample.scenario "capital of France" Sample.w0).2 in
  web_cache w' !! url = Some "Paris is the capital of France." /\
  extracted Sample.scenario url "Paris is the capital of France.".
Proof.
  split; [reflexivity|].
  destruct (cache_holds_extractor_output Sample.scenario "capital of France"
              Sample.w0 "https://example.org/france") as (Hwrites & _ & _).
  apply Hwrites. vm_compute. right; right; right; left. reflexivity.
Defined.

(** ** The first three results (C8) *)

(** C8.  In a run whose search returned more than three results, the loop
    runs over the first three of the feed, and of these the retained ones
    only (a URL that is not empty, with the scheme http or https) are looked
    up in the cache, in order; a page is fetched only for a URL that was
    looked up.  When the run ends by an exception the lookups made are the
    first of that list. *)
Theorem first_three_results_processed (env : environment) (query : string)
    (w : world) (results : list search_result) :
  parsed_results env query w = Some results ->
  3 < length results ->
  let top := take MAX_RESULTS results in
  let run := tavily_like_search env query w in
  length top = 3 /\
  top `prefix_of` results /\
  Forall (fun r =>
            res_url r <> "" /\
            exists scheme,
              urlparse_scheme env (res_url r) = Return scheme /\
              (scheme = "http" \/ scheme = "https"))
         (kept env top) /\
  exists evs,
    events_since w run.2 = search_call env query :: evs /\
    cache_lookups evs `prefix_of` map res_url (kept env top) /\
    (is_return run.1 = true -> cache_lookups evs = map res_url (kept env top)) /\
    page_fetches evs `sublist_of` cache_lookups evs.
Proof.
  intros Hp Hlen top run.
  split; [unfold top, MAX_RESULTS; rewrite length_take; lia|].
  split; [exists (drop MAX_RESULTS results); symmetry; apply take_drop|].
  split.
  { eapply Forall_impl; [apply kept_retained|].
    intros r Hr. by apply retained_spec. }
  assert (Hne : results <> []) by (intros ->; simpl in Hlen; lia).
  destruct (tavily_like_search_summary env query w results Hp Hne)
    as (evs & Hev & Hl & Hf & Hrun).
  exists evs. split_and!; try done.
  intros Hret. fold run in Hrun. destruct (run.1); [|done]. by destruct Hrun.
Qed.

Lemma first_three_results_processed_witness :
  length (default [] (parsed_results Sample.four_results "question" Sample.w0)) = 4 /\
  cache_lookups
    (events_since Sample.w0
       (tavily_like_search Sample.four_results "question" Sample.w0).2) =
  ["https://example.org/one"; "http://example.org/three"].
Proof.
  split; [reflexivity|].
  destruct (first_three_results_processed Sample.four_results "question" Sample.w0
              (default [] (parsed_results Sample.four_results "question" Sample.w0)))
    as (_ & _ & _ & evs & Hev & _ & Hall & _).
  - reflexivity.
  - vm_compute. lia.
  - rewrite Hev. simpl. rewrite Hall; reflexivity.
Defined.

(** * Further properties of the program *)

(** ** The cache store adapter *)

(** X1.  A write followed by a read of the same URL, the database answering
    both: the read returns the content just written, whatever the row was
    before (the write of an existing URL replaces its content). *)
Theorem save_then_get_round_trip (env : environment) (url content : string)
    (w : world) :
  db_failure env (now w) = None ->
  db_failure env (S (now w)) = None ->
  exists w1,
    save_to_cache env url content w = (Return tt, w1) /\
    get_cached_content env url w1 =
      (Return (Some content), log_call (DbSelect url) w1).
Proof.
  intros Hput Hget. unfold save_to_cache, get_cached_content.
  rewrite Hput. eexists. split; [reflexivity|].
  unfold now at 1. simpl. rewrite length_app. simpl.
  replace (length (trace w) + 1) with (S (now w)) by (unfold now; lia).
  rewrite Hget. by rewrite lookup_insert_eq.
Qed.

Lemma save_then_get_round_trip_witness :
  exists w1,
    save_to_cache Sample.scenario "https://example.org/a" "new"
      {| trace := []; web_cache := {[ "https://example.org/a" := "old" ]} |}
      = (Return tt, w1) /\
    (get_cached_content Sample.scenario "https://example.org/a" w1).1 =
      Return (Some "new").
Proof.
  destruct (save_then_get_round_trip Sample.scenario "https://example.org/a" "new"
              {| trace := []; web_cache := {[ "https://example.org/a" := "old" ]} |})
    as (w1 & Hsave & Hget); [reflexivity|reflexivity|].
  exists w1. split; [exact Hsave|]. rewrite Hget. reflexivity.
Defined.

(** X2.  The key of the cache is the URL as it is written: a write under
    [url], whether it succeeds or fails, leaves the row of every other URL
    as it was, and a write that fails leaves every row as it was. *)
Theorem save_to_cache_other_rows (env : environment) (url content url' : string)
    (w : world) :
  url' <> url ->
  web_cache (save_to_cache env url content w).2 !! url' = web_cache w !! url' /\
  (forall e, db_failure env (now w) = Some e ->
             web_cache (save_to_cache env url content w).2 = web_cache w).
Proof.
  intros Hne. unfold save_to_cache.
  destruct (db_failure env (now w)) as [e|]; simpl.
  - done.
  - split; [|done]. by rewrite lookup_insert_ne.
Qed.

Lemma save_to_cache_other_rows_witness :
  web_cache
    (save_to_cache Sample.scenario "https://example.org/a/" "new"
       {| trace := []; web_cache := {[ "https://example.org/a" := "old" ]} |}).2
    !! "https://example.org/a" = Some "old".
Proof.
  destruct (save_to_cache_other_rows Sample.scenario "https://example.org/a/" "new"
              "https://example.org/a"
              {| trace := []; web_cache := {[ "https://example.org/a" := "old" ]} |})
    as [Hrow _]; [discriminate|].
  rewrite Hrow. reflexivity.
Defined.

(** ** The web fetcher *)

(** X3.  [fetch_clean_text] never raises: it makes its one request, leaves
    the cache alone and returns a string.  The string is not empty only when
    the request was answered with a status that is not 4xx or 5xx and the
    extractor returned that very string for the body; a request that raises,
    an error status, an extractor that raises or finds nothing all give the
    empty string. *)
Theorem fetch_clean_text_never_raises (env : environment) (url : string)
    (w : world) :
  exists content,
    fetch_clean_text env url w = (Return content, log_call (HttpGet url []) w) /\
    (content <> "" ->
     exists resp,
       get_reply env (now w) url [] = Return resp /\
       bad_status resp = false /\
       trafilatura_extract env (text resp) = Return (Some content)).
Proof.
  rewrite fetch_clean_text_run. eexists. split; [reflexivity|].
  unfold clean_text_of. intros Hne.
  destruct (get_reply env (now w) url []) as [resp|e]; [|done].
  destruct (bad_status resp) eqn:Hs; [done|].
  destruct (trafilatura_extract env (text resp)) as [[t|]|e] eqn:Hx; try done.
  exists resp. by split_and!.
Qed.

Lemma fetch_clean_text_never_raises_witness :
  (fetch_clean_text Sample.scenario "https://example.org/france" Sample.w0).1 =
    Return "Paris is the capital of France." /\
  trafilatura_extract Sample.scenario "Paris is the capital of France." =
    Return (Some "Paris is the capital of France.").
Proof.
  split; [reflexivity|].
  destruct (fetch_clean_text_never_raises Sample.scenario
              "https://example.org/france" Sample.w0)
    as (content & Hrun & Hsrc).
  rewrite fetch_clean_text_run in Hrun. injection Hrun as <-.
  destruct Hsrc as (resp & Hreply & _ & Hx); [vm_compute; discriminate|].
  vm_compute in Hreply. injection Hreply as <-. exact Hx.
Defined.

(** ** Feed parsing *)

Lemma parse_entries_readable (entries : list entry) (results : list search_result) :
  Forall (fun e => unreadable e = false) entries ->
  parse_entries entries results =
  Return (results ++ map result_of (filter (fun e => has_link e = true) entries)).
Proof.
  intros Hall. revert results.
  induction Hall as [|e entries He _ IH]; intros results.
  { simpl. by rewrite app_nil_r. }
  simpl. unfold parse_entry, unreadable, has_link in *.
  destruct (entry_link e) as [l|] eqn:Hl; [|done]. simpl.
  destruct (PyStr.truthy l) eqn:Ht; simpl in He.
  - destruct (entry_title e) as [t|] eqn:Htitle; [|done].
    destruct (entry_summary e) as [s|] eqn:Hsum; [|done]. simpl.
    rewrite IH. rewrite filter_cons_True by (by rewrite Hl).
    simpl. rewrite <- app_assoc. simpl.
    unfold result_of. by rewrite Htitle, Hl, Hsum.
  - rewrite IH. rewrite filter_cons_False; [done|]. rewrite Hl. congruence.
Qed.

Lemma parse_entries_unreadable (entries : list entry) :
  Exists (fun e => unreadable e = true) entries ->
  forall results, exists x, parse_entries entries results = Raise x.
Proof.
  induction 1 as [e entries He|e entries _ IH]; intros results; simpl.
  - unfold parse_entry, unreadable in *.
    destruct (entry_link e) as [l|]; [|by eexists]. simpl.
    destruct (PyStr.truthy l); [|done]. simpl in He.
    destruct (entry_title e) as [t|]; [|by eexists].
    destruct (entry_summary e) as [s|]; [done|by eexists].
  - destruct (parse_entry results e) as [results'|x]; [apply IH|by eexists].
Qed.

Lemma parse_entries_urls (entries : list entry) :
  forall results results',
    Forall (fun r => res_url r <> "") results ->
    parse_entries entries results = Return results' ->
    Forall (fun r => res_url r <> "") results'.
Proof.
  induction entries as [|e entries IH]; intros results results' Hacc Hrun;
    simpl in Hrun.
  { by injection Hrun as <-. }
  destruct (parse_entry results e) as [acc|x] eqn:He; [|done].
  apply (IH acc); [|done].
  unfold parse_entry in He.
  destruct (entry_link e) as [l|]; [|done]. simpl in He.
  destruct (PyStr.truthy l) eqn:Ht; [|by injection He as <-].
  destruct (entry_title e) as [t|]; [|done].
  destruct (entry_summary e) as [s|]; [|done]. simpl in He.
  injection He as <-. apply Forall_app. split; [done|].
  constructor; [|done]. simpl. by apply truthy_true.
Qed.

(** X4.  Whatever the feed, every result of [parse_rss_results] has a URL
    that is not empty. *)
Theorem parse_rss_results_urls_not_empty (env : environment) (rss_text : string) :
  Forall (fun r => res_url r <> "") (parse_rss_results env rss_text).
Proof.
  unfold parse_rss_results.
  destruct (feedparser_parse env rss_text) as [entries|x]; [|done].
  destruct (parse_entries entries []) as [results|x] eqn:Hrun; [|done].
  by eapply parse_entries_urls.
Qed.

(** X5.  When the loop can read every entry of the feed (each has a [link]
    element, and a title and a summary when the link is not empty), the
    results are the entries whose link is not empty, in the order of the
    feed, each with its title, link and summary; an entry with an empty link
    is skipped. *)
Theorem parse_rss_results_readable (env : environment) (rss_text : string)
    (entries : list entry) :
  feedparser_parse env rss_text = Return entries ->
  Forall (fun e => unreadable e = false) entries ->
  parse_rss_results env rss_text =
  map result_of (filter (fun e => has_link e = true) entries).
Proof.
  intros Hparse Hall. unfold parse_rss_results.
  rewrite Hparse. by rewrite (parse_entries_readable _ _ Hall).
Qed.

Lemma parse_rss_results_readable_witness :
  parse_rss_results
    (Sample.make [Sample.item "Empty" "" "no link"; Sample.france]
       Sample.web Sample.db_up (Sample.answers Sample.paris)) "<rss/>" =
  [result_of Sample.france].
Proof.
  rewrite (parse_rss_results_readable _ _
             [Sample.item "Empty" "" "no link"; Sample.france]).
  - reflexivity.
  - reflexivity.
  - repeat constructor.
Defined.

(** X6.  One entry the loop cannot read (no [link] element, or a link that
    is not empty without a title or without a summary) empties the whole
    result, wherever it stands in the feed and whatever the other entries
    are. *)
Theorem parse_rss_results_all_or_nothing (env : environment) (rss_text : string)
    (entries : list entry) :
  feedparser_parse env rss_text = Return entries ->
  Exists (fun e => unreadable e = true) entries ->
  parse_rss_results env rss_text = [].
Proof.
  intros Hparse Hbad. unfold parse_rss_results. rewrite Hparse.
  by destruct (parse_entries_unreadable _ Hbad []) as [x ->].
Qed.

Lemma parse_rss_results_all_or_nothing_witness :
  unreadable Sample.no_link = true /\
  parse_rss_results Sample.feed_with_no_link "<rss/>" = [].
Proof.
  split; [reflexivity|].
  apply (parse_rss_results_all_or_nothing _ _ [Sample.france; Sample.no_link]).
  - reflexivity.
  - apply Exists_cons_tl, Exists_cons_hd. reflexivity.
Defined.

(** ** The generation client *)

Lemma rstrip_idem (s : string) : PyStr.rstrip (PyStr.rstrip s) = PyStr.rstrip s.
Proof.
  induction s as [|c s IH]; [done|]. simpl.
  destruct (PyStr.isspace c && negb (PyStr.truthy (PyStr.rstrip s))) eqn:Hc;
    [done|].
  simpl. by rewrite IH, Hc.
Qed.

Lemma lstrip_rstrip_lstrip (s : string) :
  PyStr.lstrip (PyStr.rstrip (PyStr.lstrip s)) = PyStr.rstrip (PyStr.lstrip s).
Proof.
  induction s as [|c s IH]; [done|]. simpl.
  destruct (PyStr.isspace c) eqn:Hc; [done|].
  simpl. rewrite Hc. simpl. by rewrite Hc.
Qed.

Lemma strip_idem (s : string) : PyStr.strip (PyStr.strip s) = PyStr.strip s.
Proof.
  unfold PyStr.strip. by rewrite lstrip_rstrip_lstrip, rstrip_idem.
Qed.

Lemma lstrip_length (s : string) :
  String.length (PyStr.lstrip s) <= String.length s.
Proof.
  induction s as [|d s IH]; simpl; [done|].
  destruct (PyStr.isspace d); simpl; lia.
Qed.

Lemma rstrip_length (s : string) :
  String.length (PyStr.rstrip s) <= String.length s.
Proof.
  induction s as [|d s IH]; simpl; [done|].
  destruct (PyStr.isspace d && negb (PyStr.truthy (PyStr.rstrip s))); simpl; lia.
Qed.

Lemma strip_fixed_head (c : Ascii.ascii) (rest : string) :
  PyStr.strip (String c rest) = String c rest -> PyStr.isspace c = false.
Proof.
  intros Hfix. destruct (PyStr.isspace c) eqn:Hc; [|done].
  unfold PyStr.strip in Hfix. simpl in Hfix. rewrite Hc in Hfix.
  apply (f_equal String.length) in Hfix.
  pose proof (rstrip_length (PyStr.lstrip rest)).
  pose proof (lstrip_length rest). simpl in Hfix. lia.
Qed.

Lemma rstrip_fixed_last (front : string) (c : Ascii.ascii) :
  PyStr.rstrip (front +:+ String c "") = front +:+ String c "" ->
  PyStr.isspace c = false.
Proof.
  induction front as [|d front IH]; simpl.
  - destruct (PyStr.isspace c); [done|done].
  - rewrite append_cons. simpl.
    destruct (PyStr.isspace d &&
              negb (PyStr.truthy (PyStr.rstrip (front +:+ String c ""))));
      [done|].
    intros [= Hr]. by apply IH.
Qed.

Lemma strip_fixed_last (a front : string) (c : Ascii.ascii) :
  PyStr.strip a = a -> a = front +:+ String c "" -> PyStr.isspace c = false.
Proof.
  intros Hfix Ha. apply (rstrip_fixed_last front). rewrite <- Ha.
  rewrite <- Hfix at 1. unfold PyStr.strip. by rewrite rstrip_idem.
Qed.

(** X7.  The answer of [query_local_llm] never begins and never ends with a
    white space character, whatever the generation backend replied: it is
    left unchanged by [strip]. *)
Theorem query_local_llm_answer_stripped (env : environment) (prompt : string)
    (w : world) :
  exists answer,
    (query_local_llm env prompt w).1 = Return answer /\
    PyStr.strip answer = answer /\
    (forall c rest, answer = String c rest -> PyStr.isspace c = false) /\
    (forall front c, answer = front +:+ String c "" -> PyStr.isspace c = false).
Proof.
  assert (Hfix : exists answer,
             (query_local_llm env prompt w).1 = Return answer /\
             PyStr.strip answer = answer).
  { unfold query_local_llm, try_except, bind, requests_post, raise_for_status,
      lift, ret, raise.
    destruct (post_reply env (now w) OLLAMA_API _) as [resp|e];
      [|by exists LLM_ERROR].
    destruct (bad_status resp); [by exists LLM_ERROR|].
    destruct (json resp) as [o|e]; [|by exists LLM_ERROR].
    destruct (py_get o "response" (PyStr "")) as [v|e]; [|by exists LLM_ERROR].
    destruct v; simpl; try (by exists LLM_ERROR).
    eexists. split; [reflexivity|]. apply strip_idem. }
  destruct Hfix as (answer & Hrun & Hfix). exists answer.
  split_and!; try done.
  - intros c rest ->. by apply strip_fixed_head in Hfix.
  - intros front c Ha. by eapply strip_fixed_last.
Qed.

Lemma query_local_llm_answer_stripped_witness :
  (query_local_llm
     (Sample.make [Sample.france] Sample.web Sample.db_up
        (Sample.answers "  Paris.  "))
     "prompt" Sample.w0).1 = Return "Paris.".
Proof.
  destruct (query_local_llm_answer_stripped
              (Sample.make [Sample.france] Sample.web Sample.db_up
                 (Sample.answers "  Paris.  "))
              "prompt" Sample.w0) as (answer & Hrun & _ & Hhead & _).
  vm_compute in Hrun. injection Hrun as <-. reflexivity.
Defined.

(** ** Blocks and prompt *)

Lemma slice_to_all (n : nat) (s : string) :
  PyStr.len s <= n -> PyStr.slice_to n s = s.
Proof.
  unfold PyStr.len. revert s.
  induction n as [|n IH]; intros [|c s] Hlen; simpl in *; try done; [lia|].
  rewrite IH; [done|lia].
Qed.

(** X8.  A content of at most 2000 characters is included whole in the
    block of its result. *)
Theorem short_content_is_whole (title url content : string) :
  PyStr.len content <= 2000 ->
  format_block title url content =
  "Title: " +:+ title +:+ PyStr.nl +:+
  "URL: " +:+ url +:+ PyStr.nl +:+
  "Content: " +:+ content.
Proof. intros Hlen. unfold format_block. by rewrite slice_to_all. Qed.

Lemma short_content_is_whole_witness :
  format_block "France" "https://example.org/france"
    "Paris is the capital of France." =
  "Title: France" +:+ PyStr.nl +:+ "URL: https://example.org/france" +:+
  PyStr.nl +:+ "Content: Paris is the capital of France.".
Proof.
  rewrite (short_content_is_whole "France" "https://example.org/france"
             "Paris is the capital of France.").
  - reflexivity.
  - vm_compute. lia.
Defined.

Lemma append_assoc (a b c : string) : (a +:+ b) +:+ c = a +:+ (b +:+ c).
Proof.
  induction a as [|x a IH]; [done|]. by rewrite !append_cons, IH.
Qed.

Lemma append_nil_r (a : string) : a +:+ "" = a.
Proof. induction a as [|x a IH]; [done|]. by rewrite append_cons, IH. Qed.

Lemma contains_middle (p a b : string) :
  PyStr.contains p (a +:+ p +:+ b) = true.
Proof. apply contains_later, contains_here, startswith_app. Qed.

Lemma join_has_part (sep b : string) (parts : list string) :
  In b parts ->
  exists front back, PyStr.join sep parts = front +:+ b +:+ back.
Proof.
  induction parts as [|p parts IH]; [done|]. intros [->|Hin].
  - destruct parts as [|q parts].
    + exists "", "". simpl.
      change ("" +:+ b +:+ "") with (b +:+ ""). by rewrite append_nil_r.
    + exists "", (sep +:+ PyStr.join sep (q :: parts)). done.
  - destruct (IH Hin) as (front & back & Hj).
    destruct parts as [|q parts]; [done|].
    exists (p +:+ sep +:+ front), back.
    change (PyStr.join sep (p :: q :: parts))
      with (p +:+ sep +:+ PyStr.join sep (q :: parts)).
    by rewrite Hj, !append_assoc.
Qed.

(** X9.  The prompt holds, as they are, every block it was built from and
    the question. *)
Theorem prompt_holds_blocks_and_question (blocks : list string)
    (query : string) :
  let prompt := build_prompt (PyStr.join SEPARATOR blocks) query in
  (forall b, In b blocks -> PyStr.contains b prompt = true) /\
  PyStr.contains query prompt = true.
Proof.
  intros prompt. subst prompt. unfold build_prompt. split.
  - intros b Hin.
    destruct (join_has_part SEPARATOR b blocks Hin) as (front & back & ->).
    do 9 apply contains_later.
    rewrite !append_assoc. apply contains_middle.
  - do 14 apply contains_later. apply contains_middle.
Qed.

Lemma prompt_holds_blocks_and_question_witness :
  PyStr.contains "Title: B"
    (build_prompt (PyStr.join SEPARATOR ["Title: A"; "Title: B"]) "why?") = true.
Proof.
  destruct (prompt_holds_blocks_and_question ["Title: A"; "Title: B"] "why?")
    as [Hblocks _].
  apply Hblocks. right; left. reflexivity.
Defined.

(** ** Cache first *)

(** X10.  When the database answers the read of lines 152-159: a row that
    is not empty is returned after the lookup alone; for a missing row or a
    row holding the empty string the notice of line 154 is printed first, and
    if [print] raises the exception leaves the function before any request,
    else one request for the page is made; so the web is not contacted
    exactly when the cache has a usable row or the notice cannot be
    printed. *)
Theorem web_contacted_iff_cache_miss (env : environment) (url snippet : string)
    (w : world) :
  db_failure env (now w) = None ->
  let run := page_content env url snippet w in
  let evs := events_since w run.2 in
  let miss := web_cache w !! url = None \/ web_cache w !! url = Some "" in
  (forall c, web_cache w !! url = Some c -> c <> "" ->
             run = (Return c, log_call (DbSelect url) w)) /\
  (miss -> print_failure env (S (now w)) url = None ->
   page_fetches evs = [url]) /\
  (forall e, miss -> print_failure env (S (now w)) url = Some e ->
             run = (Raise e, log_call (DbSelect url) w)) /\
  (page_fetches evs = [] <->
   (exists c, web_cache w !! url = Some c /\ c <> "") \/
   (miss /\ exists e, print_failure env (S (now w)) url = Some e)).
Proof.
  intros Hdb run evs miss.
  pose proof (page_content_run env url snippet w) as Hpage.
  fold run in Hpage. subst evs miss.
  destruct run as [r w']. simpl in *.
  destruct Hpage as [e He|c _ Hc Hne|e _ Hmiss Hprint|c _ Hmiss Hprint Hx Hne Hput
                    |c e _ Hmiss Hprint Hx Hne Hput|_ Hmiss Hprint Hx].
  - congruence.
  - rewrite (events_since_app _ _ [DbSelect url]) by done.
    split_and!.
    + intros c' Hc' _. congruence.
    + intros [?|?]; congruence.
    + intros e [?|?]; congruence.
    + split; [left; by exists c|done].
  - rewrite (events_since_app _ _ [DbSelect url]) by done.
    split_and!.
    + intros c' Hc' Hne'. destruct Hmiss; congruence.
    + congruence.
    + intros e' _ He'. congruence.
    + split; [|done]. intros _. right. split; [done|by exists e].
  - rewrite (events_since_app _ _ [DbSelect url; HttpGet url []; DbUpsert url c])
      by done.
    split_and!; try done.
    + intros c' Hc' Hne'. destruct Hmiss; congruence.
    + intros e' _ He'. congruence.
    + split; [done|].
      intros [(c' & Hc' & Hne')|(_ & e' & He')]; [destruct Hmiss|]; congruence.
  - rewrite (events_since_app _ _ [DbSelect url; HttpGet url []; DbUpsert url c])
      by done.
    split_and!; try done.
    + intros c' Hc' Hne'. destruct Hmiss; congruence.
    + intros e' _ He'. congruence.
    + split; [done|].
      intros [(c' & Hc' & Hne')|(_ & e' & He')]; [destruct Hmiss|]; congruence.
  - rewrite (events_since_app _ _ [DbSelect url; HttpGet url []]) by done.
    split_and!; try done.
    + intros c' Hc' Hne'. destruct Hmiss; congruence.
    + intros e' _ He'. congruence.
    + split; [done|].
      intros [(c' & Hc' & Hne')|(_ & e' & He')]; [destruct Hmiss|]; congruence.
Qed.

Lemma web_contacted_iff_cache_miss_witness :
  page_content Sample.scenario "https://example.org/a" "snippet"
    {| trace := []; web_cache := {[ "https://example.org/a" := "cached text" ]} |}
  = (Return "cached text",
     log_call (DbSelect "https://example.org/a")
       {| trace := []; web_cache := {[ "https://example.org/a" := "cached text" ]} |})
  /\
  page_content (Sample.ascii_stdout Sample.scenario) "https://example.org/france"
    "France info" Sample.w0
  = (Raise Sample.cannot_encode,
     log_call (DbSelect "https://example.org/france") Sample.w0).
Proof.
  split.
  - destruct (web_contacted_iff_cache_miss Sample.scenario "https://example.org/a"
                "snippet"
                {| trace := [];
                   web_cache := {[ "https://example.org/a" := "cached text" ]} |})
      as (Hhit & _ & _ & _); [reflexivity|].
    apply Hhit; [reflexivity|discriminate].
  - destruct (web_contacted_iff_cache_miss (Sample.ascii_stdout Sample.scenario)
                "https://example.org/france" "France info" Sample.w0)
      as (_ & _ & Hnotice & _); [reflexivity|].
    apply Hnotice; [left; reflexivity|reflexivity].
Defined.

(** ** The calls and the outcomes of a run *)

Lemma events_count (evs : list event) :
  length evs =
  length (cache_lookups evs) + length (page_fetches evs) +
  length (cache_writes evs) + length (generation_calls evs).
Proof.
  induction evs as [|ev evs IH]; [done|].
  destruct ev; simpl; rewrite IH; lia.
Qed.

Lemma cache_writes_app (a b : list event) :
  cache_writes (a ++ b) = cache_writes a ++ cache_writes b.
Proof. unfold cache_writes. apply omap_app. Qed.

Section Outcomes.

Variable env : environment.

Lemma page_run_writes (url snippet : string) (w : world) (r : result string)
    (w' : world) :
  page_run env url snippet w r w' ->
  exists evs,
    trace w' = trace w ++ evs /\
    length (cache_writes evs) <= length (page_fetches evs).
Proof.
  intros [e Hdb|c Hdb Hc Hne|e Hdb Hc Hprint|c Hdb Hc _ Hx Hne Hput
         |c e Hdb Hc _ Hx Hne Hput|Hdb Hc _ Hx];
    eexists; (split; [reflexivity|]); simpl; lia.
Qed.

Lemma page_run_raises (url snippet : string) (w : world) (e : exn)
    (w' : world) :
  page_run env url snippet w (Raise e) w' ->
  (exists t, db_failure env t = Some e) \/
  (exists t, print_failure env t url = Some e).
Proof. inversion 1; subst; [left|right|left]; by eexists. Qed.

(** The loop: writes follow fetches, and an exception that leaves it was
    raised by the database, by [urlparse] or by the [print] of line 154. *)
Lemma for_each_outcome (rs : list search_result) :
  forall (contents : list string) (w : world) (r : result (list string))
         (w' : world),
    for_each (process_result env) rs contents w = (r, w') ->
    (exists evs,
        trace w' = trace w ++ evs /\
        length (cache_writes evs) <= length (page_fetches evs)) /\
    (forall e, r = Raise e ->
       (exists t, db_failure env t = Some e) \/
       (exists x, In x rs /\ urlparse_scheme env (res_url x) = Raise e) \/
       (exists x t, In x rs /\ print_failure env t (res_url x) = Some e)).
Proof.
  induction rs as [|x rs IH]; intros contents w r w' Hrun.
  { injection Hrun as <- <-. split; [|done]. exists []. by rewrite app_nil_r. }
  simpl in Hrun. unfold bind in Hrun. rewrite process_result_run in Hrun.
  destruct (skip_url env (res_url x)) as [[|]|e0] eqn:Hskip.
  - destruct (IH _ _ _ _ Hrun) as [Hev Hraise]. split; [done|].
    intros e He.
    destruct (Hraise e He) as [?|[(y & ? & ?)|(y & t & ? & ?)]]; [by left| |].
    + right; left. exists y. split; [by right|done].
    + right; right. exists y, t. split; [by right|done].
  - pose proof (page_content_run env (res_url x) (res_content x) w) as Hpage.
    destruct (page_content env (res_url x) (res_content x) w) as [[c|e0] w1];
      simpl in Hpage.
    + destruct (page_run_writes _ _ _ _ _ Hpage) as (evs1 & Ht1 & Hw1).
      destruct (IH _ _ _ _ Hrun) as [(evs & Ht & Hw) Hraise]. split.
      * exists (evs1 ++ evs). split; [by rewrite Ht, Ht1, app_assoc|].
        rewrite cache_writes_app, page_fetches_app, !length_app. lia.
      * intros e He.
        destruct (Hraise e He) as [?|[(y & ? & ?)|(y & t & ? & ?)]]; [by left| |].
        -- right; left. exists y. split; [by right|done].
        -- right; right. exists y, t. split; [by right|done].
    + injection Hrun as <- <-. split; [by eapply page_run_writes|].
      intros e [= <-].
      destruct (page_run_raises _ _ _ _ _ Hpage) as [?|[t Ht]]; [by left|].
      right; right. exists x, t. split; [by left|done].
  - injection Hrun as <- <-. split.
    + exists []. by rewrite app_nil_r.
    + intros e [= <-]. right; left. exists x. split; [by left|].
      unfold skip_url in Hskip.
      destruct (PyStr.truthy (res_url x)); [|done].
      by destruct (urlparse_scheme env (res_url x)) as [s|e1]; [|injection Hskip as ->].
Qed.

End Outcomes.

(** X11.  Whatever the collaborators do, a run of [tavily_like_search]
    makes the search request first and then at most three cache lookups, at
    most one page fetch per lookup, at most one cache write per fetch and at
    most one generation request: ten calls at most after the search
    request. *)
Theorem tavily_like_search_call_bounds (env : environment) (query : string)
    (w : world) :
  exists evs,
    events_since w (tavily_like_search env query w).2 =
      search_call env query :: evs /\
    length (cache_lookups evs) <= MAX_RESULTS /\
    length (page_fetches evs) <= length (cache_lookups evs) /\
    length (cache_writes evs) <= length (page_fetches evs) /\
    length (generation_calls evs) <= 1 /\
    length evs <= 3 * MAX_RESULTS + 1.
Proof.
  assert (Hmain : exists evs,
    events_since w (tavily_like_search env query w).2 =
      search_call env query :: evs /\
    length (cache_lookups evs) <= MAX_RESULTS /\
    length (page_fetches evs) <= length (cache_lookups evs) /\
    length (cache_writes evs) <= length (page_fetches evs) /\
    length (generation_calls evs) <= 1).
  { rewrite tavily_like_search_unfold.
    assert (Hnone : forall (m : string),
      exists evs,
        events_since w (Return m, log_call (search_call env query) w).2 =
          search_call env query :: evs /\
        length (cache_lookups evs) <= MAX_RESULTS /\
        length (page_fetches evs) <= length (cache_lookups evs) /\
        length (cache_writes evs) <= length (page_fetches evs) /\
        length (generation_calls evs) <= 1).
    { intros m. exists []. simpl. split_and!; try lia.
      by rewrite (events_since_app _ _ [search_call env query]). }
    destruct (search_outcome env (search_reply env query w)) as [m|results];
      [apply Hnone|].
    destruct results as [|r0 rest] eqn:Hres; [apply (Hnone NO_RESULTS)|].
    rewrite <- Hres.
    assert (Hne : results <> []) by (by rewrite Hres).
    clear Hres r0 rest Hnone.
    destruct (answer_from env query results
                (log_call (search_call env query) w)) as [r w'] eqn:Hrun.
    pose proof Hrun as Hrun'.
    apply answer_from_summary in Hrun as (_ & evs & Ht & Hl & Hf & Hr); [|done].
    exists evs. simpl. split_and!.
    - apply events_since_app. rewrite Ht. simpl. by rewrite <- app_assoc.
    - apply prefix_length in Hl. rewrite length_map in Hl.
      pose proof (length_filter (fun r => retained env r = true)
                    (take MAX_RESULTS results)) as Hk.
      fold (kept env (take MAX_RESULTS results)) in Hk.
      rewrite length_take in Hk. lia.
    - by apply sublist_length.
    - unfold answer_from in Hrun'. destruct results as [|r0 rest]; [done|].
      unfold bind in Hrun'.
      destruct (for_each (process_result env) (take MAX_RESULTS (r0 :: rest)) []
                  (log_call (search_call env query) w))
        as [[contents|e] w1] eqn:Hloop.
      + destruct (for_each_outcome env _ _ _ _ _ Hloop)
          as [(evs1 & Ht1 & Hw1) _].
        destruct contents as [|b bs].
        * injection Hrun' as _ <-. rewrite Ht in Ht1.
          apply app_inv_head in Ht1 as ->. done.
        * destruct (query_local_llm_returns env
                      (build_prompt (PyStr.join SEPARATOR (b :: bs)) query) w1)
            as (answer & Hllm).
          rewrite Hllm in Hrun'. injection Hrun' as _ <-.
          simpl in Ht. rewrite Ht1, <- app_assoc in Ht.
          apply app_inv_head in Ht as <-.
          rewrite cache_writes_app, page_fetches_app, !length_app. simpl. lia.
      + injection Hrun' as _ <-.
        destruct (for_each_outcome env _ _ _ _ _ Hloop)
          as [(evs1 & Ht1 & Hw1) _].
        rewrite Ht in Ht1. apply app_inv_head in Ht1 as ->. done.
    - destruct r as [answer|e]; [|rewrite Hr; simpl; lia].
      destruct Hr as (_ & _ & blocks & _ & Hb).
      destruct blocks; [destruct Hb as [_ ->]|rewrite Hb]; simpl; lia. }
  destruct Hmain as (evs & Hev & H1 & H2 & H3 & H4).
  exists evs. split_and!; try done.
  rewrite (events_count evs). unfold MAX_RESULTS in *. lia.
Qed.

(** X12.  No failure of the search request, of the feed parser, of a page
    fetch, of the extractor or of the generation backend leaves
    [tavily_like_search]: an exception that leaves it was raised by the
    database, by [urlparse] on the URL of one of the first three results, or
    by the [print] of the notice of line 154 for such a URL. *)
Theorem only_uncaught_errors_escape (env : environment)
    (query : string) (w : world) (e : exn) :
  (tavily_like_search env query w).1 = Raise e ->
  (exists t, db_failure env t = Some e) \/
  (exists results r,
      parsed_results env query w = Some results /\
      In r (take MAX_RESULTS results) /\
      urlparse_scheme env (res_url r) = Raise e) \/
  (exists results r t,
      parsed_results env query w = Some results /\
      In r (take MAX_RESULTS results) /\
      print_failure env t (res_url r) = Some e).
Proof.
  rewrite tavily_like_search_unfold.
  unfold parsed_results, search_outcome.
  destruct (search_reply env query w) as [resp|[m|m]]; try done.
  destruct (bad_status resp); [done|].
  set (results := parse_rss_results env (text resp)).
  unfold answer_from. destruct results as [|r0 rest] eqn:Hres; [done|].
  unfold bind.
  destruct (for_each (process_result env) (take MAX_RESULTS (r0 :: rest)) []
              (log_call (search_call env query) w))
    as [[contents|e0] w1] eqn:Hloop.
  - destruct contents as [|b bs]; [done|].
    by destruct (query_local_llm_returns env
                   (build_prompt (PyStr.join SEPARATOR (b :: bs)) query) w1)
      as (answer & ->).
  - simpl. intros [= ->].
    destruct (for_each_outcome env _ _ _ _ _ Hloop) as [_ Hraise].
    destruct (Hraise e eq_refl) as [?|[(x & Hin & Hx)|(x & t & Hin & Hx)]];
      [by left| |].
    + right; left. by exists (r0 :: rest), x.
    + right; right. by exists (r0 :: rest), x, t.
Qed.

Lemma only_uncaught_errors_escape_witness :
  (tavily_like_search (Sample.ascii_stdout Sample.scenario) "capital of France"
     Sample.w0).1 = Raise Sample.cannot_encode /\
  ((exists t, db_failure (Sample.ascii_stdout Sample.scenario) t =
              Some Sample.cannot_encode) \/
   (exists t, print_failure (Sample.ascii_stdout Sample.scenario) t
                "https://example.org/france" = Some Sample.cannot_encode)).
Proof.
  split; [reflexivity|].
  destruct (only_uncaught_errors_escape (Sample.ascii_stdout Sample.scenario)
              "capital of France" Sample.w0 Sample.cannot_encode eq_refl)
    as [Hdb|[(results & r & Hp & Hin & Hurl)|(results & r & t & Hp & Hin & Hpr)]].
  - left. exact Hdb.
  - right. exists 0. reflexivity.
  - right. exists 0. reflexivity.
Defined.

(** X13.  What [tavily_like_search] returns is one of the two messages of a
    failed search request, "No search results found.", "No usable content
    retrieved.", or else the very string [query_local_llm] returned for the
    prompt, as the last step of the run. *)
Theorem answer_is_message_or_generation (env : environment) (query : string)
    (w : world) (answer : string) :
  (tavily_like_search env query w).1 = Return answer ->
  (exists m, answer = "[!] Search request failed: " +:+ m) \/
  (exists m, answer = "[!] Search failed: " +:+ m) \/
  answer = NO_RESULTS \/
  answer = NO_USABLE \/
  (exists prompt w1,
      query_local_llm env prompt w1 =
      (Return answer, (tavily_like_search env query w).2)).
Proof.
  rewrite tavily_like_search_unfold. unfold search_outcome.
  destruct (search_reply env query w) as [resp|[m|m]].
  - destruct (bad_status resp).
    { intros [= <-]. left. by eexists. }
    unfold answer_from.
    destruct (parse_rss_results env (text resp)) as [|r0 rest].
    { intros [= <-]. by right; right; left. }
    unfold bind.
    destruct (for_each (process_result env) (take MAX_RESULTS (r0 :: rest)) []
                (log_call (search_call env query) w))
      as [[contents|e0] w1]; [|done].
    destruct contents as [|b bs].
    { intros [= <-]. by right; right; right; left. }
    intros Hrun. right; right; right; right.
    exists (build_prompt (PyStr.join SEPARATOR (b :: bs)) query), w1.
    destruct (query_local_llm env
                (build_prompt (PyStr.join SEPARATOR (b :: bs)) query) w1)
      as [r w2]. simpl in *. by rewrite Hrun.
  - intros [= <-]. left. by eexists.
  - intros [= <-]. right; left. by eexists.
Qed.

Lemma answer_is_message_or_generation_witness :
  (tavily_like_search Sample.unreachable "capital of France" Sample.w0).1 =
    Return "[!] Search request failed: Connection refused".
Proof.
  destruct (answer_is_message_or_generation Sample.unreachable
              "capital of France" Sample.w0
              "[!] Search request failed: Connection refused" eq_refl)
    as [_|_]; reflexivity.
Defined.

(** ** The command line *)

(** X14.  Run without a question, the script prints the usage line, makes
    no outside call and ends with the status 1.  Run with one, it searches
    for the words of the command line joined by single spaces, prints the
    rule and the answer and ends with the status 0, and an exception of the
    search leaves it; so the question may be given as one quoted argument or
    as separate words, and the name of the script does not matter. *)
Theorem main_joins_the_words (env : environment) (prog : string)
    (words : list string) (w : world) :
  main env [prog] w = (Return (1, [USAGE]), w) /\
  (words <> [] ->
   main env (prog :: words) w =
     match tavily_like_search env (PyStr.join " " words) w with
     | (Return answer, w') => (Return (0, [RULE; answer]), w')
     | (Raise e, w') => (Raise e, w')
     end /\
   forall prog',
     main env [prog'; PyStr.join " " words] w = main env (prog :: words) w).
Proof.
  split; [done|]. intros Hne.
  destruct words as [|word words]; [done|].
  assert (Hmain : main env (prog :: word :: words) w =
     match tavily_like_search env (PyStr.join " " (word :: words)) w with
     | (Return answer, w') => (Return (0, [RULE; answer]), w')
     | (Raise e, w') => (Raise e, w')
     end).
  { unfold main, bind, ret.
    change (length (prog :: word :: words) <? 2) with false.
    change (drop 1 (prog :: word :: words)) with (word :: words).
    cbv beta iota.
    by destruct (tavily_like_search env (PyStr.join " " (word :: words)) w)
      as [[answer|e] w']. }
  split; [done|]. intros prog'. rewrite Hmain.
  unfold main, bind, ret.
  change (length [prog'; PyStr.join " " (word :: words)] <? 2) with false.
  change (PyStr.join " " (drop 1 [prog'; PyStr.join " " (word :: words)]))
    with (PyStr.join " " (word :: words)).
  cbv beta iota.
  by destruct (tavily_like_search env (PyStr.join " " (word :: words)) w)
    as [[answer|e] w'].
Qed.

Lemma main_joins_the_words_witness :
  main Sample.scenario ["local_search.py"; "capital"; "of"; "France"] Sample.w0 =
  main Sample.scenario ["./local_search.py"; "capital of France"] Sample.w0 /\
  (main Sample.scenario ["local_search.py"; "capital"; "of"; "France"]
     Sample.w0).1 = Return (0, [RULE; Sample.paris]).
Proof.
  destruct (main_joins_the_words Sample.scenario "local_search.py"
              ["capital"; "of"; "France"] Sample.w0) as [_ Hwords].
  destruct Hwords as [Hrun Hquoted]; [discriminate|].
  split.
  - symmetry. apply (Hquoted "./local_search.py").
  - rewrite Hrun. reflexivity.
Defined.
